(** * Row lineage and metadata tracking: a shallow embedding of
      [pipeline_functions.py] and [validation_function.py]

    The Python module keeps one [MetadataManager] object (lineage ledger,
    error ledger, transformation log) that two decorators and the pipeline
    builder write to.  The embedding threads that object, together with the
    two external sources the code reads ([uuid.uuid4] and [time.time]),
    through every call as an explicit [World]; a call either returns a value
    or raises an exception.

    Reading conventions:
    - [pipeline_functions.py] uses the names [ValidationError] and [context]
      inside [handle_row_errors] without importing or defining them; what
      the globals of the module hold for the two names is an explicit
      [Scope], and [module_scope] is the module as it is written, where
      neither is bound;
    - the decorators and [build_pipeline] are given the same manager object,
      as in the usage example of the module;
    - the lines written to the [logging] stream are not part of the state. *)

From Stdlib Require Import ZArith Ascii PrimFloat.
From stdpp Require Import gmap strings list fin_maps pretty.

Local Open Scope string_scope.
Local Open Scope list_scope.

(** ** Python values, exceptions, results *)

(** Scalar cells of a table: the values that can also serve as dictionary
    keys ([None], integers, strings). *)
Inductive Value : Type :=
  | VNone
  | VInt (n : Z)
  | VStr (s : string).

#[global] Instance Value_eq_dec : EqDecision Value.
Proof. solve_decision. Defined.

Definition Value_encode (v : Value) : unit + (Z + string) :=
  match v with
  | VNone => inl tt
  | VInt n => inr (inl n)
  | VStr s => inr (inr s)
  end.

Definition Value_decode (x : unit + (Z + string)) : Value :=
  match x with
  | inl _ => VNone
  | inr (inl n) => VInt n
  | inr (inr s) => VStr s
  end.

#[global] Instance Value_countable : Countable Value.
Proof.
  apply (inj_countable' Value_encode Value_decode).
  by intros [].
Defined.

(** A Python [dict] with string keys and values, in insertion order. *)
Definition StrDict := list (string * string).

(** [d[k] = v]: overwrite in place when the key exists, append otherwise. *)
Fixpoint dict_setitem (k v : string) (d : StrDict) : StrDict :=
  match d with
  | [] => [(k, v)]
  | (k', v') :: rest =>
      if decide (k' = k) then (k, v) :: rest
      else (k', v') :: dict_setitem k v rest
  end.

(** [repr] of a [str]: single quotes, unless the text has a single quote
    and no double quote; backslash, the chosen quote and control characters
    are escaped. *)
Definition hex_digit (n : N) : ascii :=
  match n with
  | 0 => "0" | 1 => "1" | 2 => "2" | 3 => "3" | 4 => "4" | 5 => "5"
  | 6 => "6" | 7 => "7" | 8 => "8" | 9 => "9" | 10 => "a" | 11 => "b"
  | 12 => "c" | 13 => "d" | 14 => "e" | _ => "f"
  end%N%char.

Definition backslash : ascii := "\"%char.
Definition single_quote : ascii := "'"%char.
Definition double_quote : ascii := ascii_of_nat 34.

Definition repr_char (quote : ascii) (c : ascii) : string :=
  let n := N_of_ascii c in
  if decide (c = backslash) then String backslash (String backslash "")
  else if decide (c = quote) then String backslash (String quote "")
  else if decide (n = 10%N) then String backslash "n"
  else if decide (n = 13%N) then String backslash "r"
  else if decide (n = 9%N) then String backslash "t"
  else if decide (n < 32 ∨ n = 127)%N
       then String backslash
              (String "x" (String (hex_digit (n / 16)) (String (hex_digit (n mod 16)) "")))
  else String c "".

Fixpoint string_has (c : ascii) (s : string) : bool :=
  match s with
  | EmptyString => false
  | String c' rest => if decide (c' = c) then true else string_has c rest
  end.

Fixpoint repr_body (quote : ascii) (s : string) : string :=
  match s with
  | EmptyString => ""
  | String c rest => repr_char quote c +:+ repr_body quote rest
  end.

Definition repr_str (s : string) : string :=
  let quote : ascii :=
    if string_has single_quote s && negb (string_has double_quote s)
    then double_quote else single_quote in
  String quote (repr_body quote s) +:+ String quote "".

(** [repr] of a [dict] of strings. *)
Fixpoint repr_items (d : StrDict) : string :=
  match d with
  | [] => ""
  | [(k, v)] => repr_str k +:+ ": " +:+ repr_str v
  | (k, v) :: rest => repr_str k +:+ ": " +:+ repr_str v +:+ ", " +:+ repr_items rest
  end.

Definition repr_dict (d : StrDict) : string :=
  "{" +:+ repr_items d +:+ "}".

(** Instances of [Exception] subclasses: what an [except Exception] clause
    catches.  [ValidationError] carries its [errors] mapping. *)
Inductive Exn : Type :=
  | ValidationError (errors : StrDict)
  | NameError (name : string)
  | KeyError (key : string)
  | ValueError (msg : string)
  | PyException (cls : string) (msg : string).

Definition is_validation (e : Exn) : bool :=
  match e with
  | ValidationError _ => true
  | _ => false
  end.

Inductive Result (A : Type) : Type :=
  | Ok (a : A)
  | Raise (e : Exn).

Arguments Ok {A} a.
Arguments Raise {A} e.

Definition raises {A} (r : Result A) : bool :=
  match r with
  | Ok _ => false
  | Raise _ => true
  end.

(** ** Tables *)

(** A [pandas.DataFrame]: a row count (the length of the index) and the
    columns in order, each a list of cells. *)
Record DataFrame : Type := mkDataFrame {
  nrows : nat;
  columns : list (string * list Value)
}.

#[global] Instance DataFrame_inhabited : Inhabited DataFrame :=
  populate (mkDataFrame 0 []).

(** A row handed to a row-level function ([df.apply(f, axis=1)]): a
    mapping from column name to cell. *)
Abbreviation Row := (gmap string Value).

Fixpoint column_lookup (c : string) (cols : list (string * list Value))
  : option (list Value) :=
  match cols with
  | [] => None
  | (c', vs) :: rest => if decide (c' = c) then Some vs else column_lookup c rest
  end.

(** [df[c]] *)
Definition df_getitem (c : string) (df : DataFrame) : Result (list Value) :=
  match column_lookup c (columns df) with
  | Some vs => Ok vs
  | None => Raise (KeyError c)
  end.

Fixpoint column_assign (c : string) (vs : list Value)
  (cols : list (string * list Value)) : list (string * list Value) :=
  match cols with
  | [] => [(c, vs)]
  | (c', vs') :: rest =>
      if decide (c' = c) then (c, vs) :: rest
      else (c', vs') :: column_assign c vs rest
  end.

(** [df[c] = vs] for a list [vs]: pandas refuses a list whose length is not
    the length of the index; an existing column keeps its place, a new one
    goes last. *)
Definition df_setitem (c : string) (vs : list Value) (df : DataFrame)
  : Result DataFrame :=
  if decide (length vs = nrows df)
  then Ok (mkDataFrame (nrows df) (column_assign c vs (columns df)))
  else Raise (ValueError "Length of values does not match length of index").

(** [df.copy()] builds a new object with the same content. *)
Definition df_copy (df : DataFrame) : DataFrame :=
  mkDataFrame (nrows df) (columns df).

Definition row_at (df : DataFrame) (i : nat) : Row :=
  list_to_map (map (fun '(c, vs) => (c, nth i vs VNone)) (columns df)).

Definition df_rows (df : DataFrame) : list Row :=
  map (row_at df) (seq 0 (nrows df)).

(** The cells of the [row_id] column, or [[]] when there is none. *)
Definition row_ids (df : DataFrame) : list Value :=
  match column_lookup "row_id" (columns df) with
  | Some vs => vs
  | None => []
  end.

(** ** The metadata manager *)

(** One entry of [MetadataManager.errors]. *)
Record ErrorRecord : Type := mkErrorRecord {
  err_row_id : Value;
  err_transformation : string;
  err_error : string
}.

(** [collections.defaultdict(list)] keyed by row identifier. *)
Abbreviation Lineage := (gmap Value (list string)).

(** [d[k]]: a missing key is first inserted with [list()]. *)
Definition dd_getitem (k : Value) (d : Lineage) : list string * Lineage :=
  match d !! k with
  | Some v => (v, d)
  | None => ([], <[k := []]> d)
  end.

(** [d[k].append(x)] *)
Definition dd_append (k : Value) (x : string) (d : Lineage) : Lineage :=
  let '(v, d') := dd_getitem k d in <[k := v ++ [x]]> d'.

(** [d.get(k, dflt)]: never inserts. *)
Definition dd_get (k : Value) (dflt : list string) (d : Lineage) : list string :=
  match d !! k with
  | Some v => v
  | None => dflt
  end.

(** Python floats are IEEE 754 doubles, as are the kernel's. *)
Abbreviation float := PrimFloat.float.

(** One entry of [MetadataManager.logs]. *)
Record LogRecord : Type := mkLogRecord {
  log_name : string;
  log_time : float;
  log_details : list (string * Value)
}.

Record MetadataManager : Type := mkMetadataManager {
  lineage : Lineage;
  errors : list ErrorRecord;
  logs : list LogRecord
}.

(** [MetadataManager.__init__] *)
Definition new_manager : MetadataManager :=
  mkMetadataManager ∅ [] [].

(** The manager object together with the outside world the code reads:
    the identifiers [uuid.uuid4] will hand out and the readings
    [time.time] will give, each with the number of calls made so far. *)
Record World : Type := mkWorld {
  manager : MetadataManager;
  uuid_source : nat -> string;
  uuid_calls : nat;
  clock : nat -> float;
  clock_reads : nat
}.

Definition set_manager (m : MetadataManager) (w : World) : World :=
  mkWorld m (uuid_source w) (uuid_calls w) (clock w) (clock_reads w).

(** Computations: read and write the world, return or raise. *)
Definition M (A : Type) : Type := World -> Result A * World.

Definition ret {A} (a : A) : M A := fun w => (Ok a, w).

Definition throw {A} (e : Exn) : M A := fun w => (Raise e, w).

Definition bind {A B} (c : M A) (k : A -> M B) : M B :=
  fun w =>
    match c w with
    | (Ok a, w') => k a w'
    | (Raise e, w') => (Raise e, w')
    end.

(** [try: c  except Exception as e: h e] *)
Definition try_except {A} (c : M A) (h : Exn -> M A) : M A :=
  fun w =>
    match c w with
    | (Ok a, w') => (Ok a, w')
    | (Raise e, w') => h e w'
    end.

Definition lift {A} (r : Result A) : M A := fun w => (r, w).

Notation "'let*' x ':=' c 'in' k" := (bind c (fun x => k))
  (at level 10, x name, c at level 100, k at level 200).
Notation "'let*' '_' ':=' c 'in' k" := (bind c (fun _ => k))
  (at level 10, c at level 100, k at level 200).

(** [str(uuid.uuid4())] *)
Definition uuid4 : M string :=
  fun w =>
    (Ok (uuid_source w (uuid_calls w)),
     mkWorld (manager w) (uuid_source w) (S (uuid_calls w))
             (clock w) (clock_reads w)).

(** [time.time()] *)
Definition time_time : M float :=
  fun w =>
    (Ok (clock w (clock_reads w)),
     mkWorld (manager w) (uuid_source w) (uuid_calls w)
             (clock w) (S (clock_reads w))).

(** [str(e)] *)
Definition str_exn (e : Exn) : string :=
  match e with
  | ValidationError errs => "Validation failed: " +:+ repr_dict errs
  | NameError n => "name '" +:+ n +:+ "' is not defined"
  | KeyError k => repr_str k
  | ValueError msg => msg
  | PyException _ msg => msg
  end.

Definition modify_manager (f : MetadataManager -> MetadataManager) : M unit :=
  fun w => (Ok tt, set_manager (f (manager w)) w).

Definition with_lineage (f : Lineage -> Lineage) (m : MetadataManager)
  : MetadataManager :=
  mkMetadataManager (f (lineage m)) (errors m) (logs m).

(** *** Methods of [MetadataManager] *)

(** [initialize]: every identifier of the table gets a new empty list. *)
Definition initialize (df : DataFrame) : M unit :=
  let* ids := lift (df_getitem "row_id" df) in
  modify_manager
    (with_lineage (fun lin => foldl (fun l rid => <[rid := []]> l) lin ids)).

(** [update_lineage]: append for every row of the table, then overwrite
    the entries of [new_rows] when that list is given and not empty. *)
Definition update_lineage (df : DataFrame) (transformation : string)
  (new_rows : option (list Value)) : M unit :=
  let* ids := lift (df_getitem "row_id" df) in
  let* _ := modify_manager
    (with_lineage
       (fun lin => foldl (fun l rid => dd_append rid transformation l) lin ids)) in
  match new_rows with
  | Some ((_ :: _) as rows) =>
      modify_manager
        (with_lineage
           (fun lin => foldl (fun l rid => <[rid := [transformation]]> l) lin rows))
  | _ => ret tt
  end.

(** [log_transformation]; [details or {}] is the given mapping, or an
    empty one. *)
Definition log_transformation (transformation : string) (start_time : float)
  (details : option (list (string * Value))) : M unit :=
  let* now := time_time in
  let duration := PrimFloat.sub now start_time in
  modify_manager
    (fun m =>
       mkMetadataManager (lineage m) (errors m)
         (logs m ++ [mkLogRecord transformation duration (default [] details)])).

(** [log_error] *)
Definition log_error (row_id : Value) (transformation : string) (error : Exn)
  : M unit :=
  modify_manager
    (fun m =>
       mkMetadataManager (lineage m)
         (errors m ++ [mkErrorRecord row_id transformation (str_exn error)])
         (logs m)).

(** [get_lineage]: [self.lineage.get(row_id, [])] *)
Definition get_lineage (row_id : Value) : M (list string) :=
  fun w => (Ok (dd_get row_id [] (lineage (manager w))), w).

Definition get_errors : M (list ErrorRecord) :=
  fun w => (Ok (errors (manager w)), w).

Definition get_logs : M (list LogRecord) :=
  fun w => (Ok (logs (manager w)), w).

(** *** Decorators *)

(** A Python function: its [__name__] and what calling it does. *)
Record PyFunction (A B : Type) : Type := mkPyFunction {
  fn_name : string;
  fn_call : A -> M B
}.
Arguments mkPyFunction {A B} fn_name fn_call.
Arguments fn_name {A B} p.
Arguments fn_call {A B} p a.

(** The [on_error] argument: a callable of three arguments. *)
Definition ErrorCallback : Type := Value -> string -> Exn -> M unit.

(** [str(column_name)] *)
Definition str_column (column_name : option string) : string :=
  match column_name with
  | Some c => c
  | None => "None"
  end.

(** [f"{func.__name__} (column: {column_name})"] *)
Definition error_label (name : string) (column_name : option string) : string :=
  name +:+ " (column: " +:+ str_column column_name +:+ ")".

(** The two names [wrapper] reads without binding them: [ValidationError]
    (in [except ValidationError] and in [raise ValidationError(...)]) and
    [context].  Neither is a parameter or a local of [wrapper], [decorator]
    or [handle_row_errors], so Python looks each one up in the globals of
    the module at the moment the line runs.  A [Scope] says what the
    globals hold: whether [ValidationError] is the class of
    [validation_function.py], and the text [context] stands for, if any. *)
Record Scope : Type := mkScope {
  binds_ValidationError : bool;
  binds_context : option string
}.

(** Evaluating the free name [context] inside [wrapper]: [scope] is what
    the enclosing scopes bind it to, if anything. *)
Definition load_context (scope : option string) : Result string :=
  match scope with
  | Some c => Ok c
  | None => Raise (NameError "context")
  end.

(** The comprehension
    [{f"{context} -> {key}": msg for key, msg in e.errors.items()}]:
    the name [context] is evaluated once per item. *)
Fixpoint with_context (scope : option string) (items : StrDict) (acc : StrDict)
  : Result StrDict :=
  match items with
  | [] => Ok acc
  | (key, msg) :: rest =>
      match load_context scope with
      | Ok c => with_context scope rest (dict_setitem (c +:+ " -> " +:+ key) msg acc)
      | Raise e => Raise e
      end
  end.

(** [handle_row_errors(on_error, column_name, fallback_value)(func)].
    When the call in the [try] block raises, the [except] clauses are
    tried in source order, and matching the first one evaluates the name
    [ValidationError]: if the globals do not bind it, that lookup raises
    [NameError] out of the [try] statement, whatever the exception was,
    and the second clause is never reached. *)
Definition handle_row_errors {V : Type} (scope : Scope)
  (on_error : option ErrorCallback) (column_name : option string)
  (fallback_value : V) (func : PyFunction Row V) : PyFunction Row V :=
  mkPyFunction (fn_name func)
    (fun row w =>
       match fn_call func row w with
       | (Ok v, w') => (Ok v, w')
       | (Raise e, w') =>
           if binds_ValidationError scope then
             match e with
             | ValidationError errs =>
                 match with_context (binds_context scope) errs [] with
                 | Ok error_with_context =>
                     (Raise (ValidationError error_with_context), w')
                 | Raise e' => (Raise e', w')
                 end
             | _ =>
                 match on_error, row !! "row_id" with
                 | Some callback, Some rid =>
                     (let* _ := callback rid (error_label (fn_name func) column_name) e in
                      ret fallback_value) w'
                 | _, _ => (Ok fallback_value, w')
                 end
             end
           else (Raise (NameError "ValidationError"), w')
       end).

(** The globals of [pipeline_functions.py] as it is written: the imports
    of the module are [pandas], [uuid], [logging], [time], [functools],
    [typing] and [collections], and no statement of the module assigns
    [ValidationError] or [context]. *)
Definition module_scope : Scope := mkScope false None.

(** The globals of a module that also imports the class from
    [validation_function.py]; [context] is still unbound. *)
Definition imported_scope : Scope := mkScope true None.

(** [manage_metadata(metadata_manager)(func)] *)
Definition manage_metadata (func : PyFunction DataFrame DataFrame)
  : PyFunction DataFrame DataFrame :=
  mkPyFunction (fn_name func)
    (fun df =>
       let* start_time := time_time in
       let transformation_name := fn_name func in
       try_except
         (let* result := fn_call func df in
          let* _ := update_lineage result transformation_name None in
          let* _ := log_transformation transformation_name start_time
                      (Some [("row_count", VInt (Z.of_nat (nrows result)))]) in
          ret result)
         (fun e =>
            let* _ := log_error (VStr "global") transformation_name e in
            throw e)).

(** *** Pipeline components *)

(** [[str(uuid.uuid4()) for _ in range(n)]] *)
Fixpoint uuid_list (n : nat) : M (list string) :=
  match n with
  | O => ret []
  | S k =>
      let* u := uuid4 in
      let* us := uuid_list k in
      ret (u :: us)
  end.

(** [add_row_id] on table values. *)
Definition add_row_id (df : DataFrame) : M DataFrame :=
  let df' := df_copy df in
  let* ids := uuid_list (nrows df') in
  lift (df_setitem "row_id" (map VStr ids) df').

(** [add_row_id] on table objects.  Python variables hold references:
    [store] maps each reference to its object.  [df.copy()] allocates a
    new object, the local name [df] is rebound to it, and the column
    assignment writes into that object. *)
Definition add_row_id_ref (df : nat) (store : gmap nat DataFrame)
  : M (nat * gmap nat DataFrame) :=
  let df' := fresh (dom store) in
  let store' := <[df' := df_copy (store !!! df)]> store in
  let* ids := uuid_list (nrows (store' !!! df')) in
  let* updated := lift (df_setitem "row_id" (map VStr ids) (store' !!! df')) in
  ret (df', <[df' := updated]> store').

(** The [for] loop of [pipeline]. *)
Fixpoint run_transformations (pipeline_specs : list (DataFrame -> M DataFrame))
  (df : DataFrame) : M DataFrame :=
  match pipeline_specs with
  | [] => ret df
  | transformation :: rest =>
      let* df' := transformation df in
      run_transformations rest df'
  end.

(** [build_pipeline(pipeline_specs, metadata_manager)] *)
Definition build_pipeline (pipeline_specs : list (DataFrame -> M DataFrame))
  : DataFrame -> M DataFrame :=
  fun df =>
    let* df := add_row_id df in
    let* _ := initialize df in
    run_transformations pipeline_specs df.

(** The loop [df.apply(f, axis=1)] runs over the rows of a table that has
    rows: [f] on each row in order; the first exception ends the loop. *)
Fixpoint apply_rows {V : Type} (f : Row -> M V) (rows : list Row) : M (list V) :=
  match rows with
  | [] => ret []
  | row :: rest =>
      let* v := f row in
      let* vs := apply_rows f rest in
      ret (v :: vs)
  end.

(** [df.apply(f, axis=1)].  On a table with at least one row and one
    column pandas runs the loop above.  On a table with no row or no
    column it calls [f] once on a placeholder row of NaN cells, only to
    learn the shape of the result; the cells of this model have no NaN,
    so that case is outside the model and [df_apply] is [None] there. *)
Definition df_apply {V : Type} (f : Row -> M V) (df : DataFrame)
  : option (M (list V)) :=
  match nrows df, columns df with
  | S _, _ :: _ => Some (apply_rows f (df_rows df))
  | _, _ => None
  end.


(** ** Sample inputs *)

(** A clock that reads 0.0, 1.0, 2.0, ... *)
Fixpoint sample_clock (n : nat) : float :=
  match n with
  | O => PrimFloat.zero
  | S k => PrimFloat.add (sample_clock k) PrimFloat.one
  end.

(** A new manager, and a source of identifiers that never repeats. *)
Definition sample_world : World :=
  mkWorld new_manager pretty 0 sample_clock 0.

(** The table of the usage example, before identifiers are added. *)
Definition sample_input : DataFrame :=
  mkDataFrame 3
    [("id", [VInt 1; VInt 2; VInt 3]);
     ("start_value", [VInt 100; VInt 0; VInt 200]);
     ("end_value", [VInt 110; VInt 20; VInt 240])].

(** The same table with identifiers. *)
Definition sample_identified : DataFrame :=
  mkDataFrame 3
    [("id", [VInt 1; VInt 2; VInt 3]);
     ("start_value", [VInt 100; VInt 0; VInt 200]);
     ("end_value", [VInt 110; VInt 20; VInt 240]);
     ("row_id", [VStr "a"; VStr "b"; VStr "c"])].

(** The queries of the manager, by name. *)
Inductive Query : Type :=
  | QueryLineage (row_id : Value)
  | QueryErrors
  | QueryLogs.

(** Running a query for its effect on the world only. *)
Definition run_query (q : Query) (w : World) : World :=
  match q with
  | QueryLineage row_id => snd (get_lineage row_id w)
  | QueryErrors => snd (get_errors w)
  | QueryLogs => snd (get_logs w)
  end.

(** The run of a pipeline said in words: the transformations are applied
    in list order, each to the result of the one before; the first one that
    raises ends the run with its exception, and the rest of the list is not
    looked at. *)
Inductive applied_in_order :
  list (DataFrame -> M DataFrame) -> DataFrame -> World ->
  Result DataFrame -> World -> Prop :=
  | applied_none df w :
      applied_in_order [] df w (Ok df) w
  | applied_next t rest df w df' w' r w'' :
      t df w = (Ok df', w') ->
      applied_in_order rest df' w' r w'' ->
      applied_in_order (t :: rest) df w r w''
  | applied_raise t rest df w e w' :
      t df w = (Raise e, w') ->
      applied_in_order (t :: rest) df w (Raise e) w'.

(** How many rows carry the identifier [k]. *)
Definition occurrences (k : Value) (ids : list Value) : nat :=
  length (filter (fun rid => rid = k) ids).

(** A transformation that always raises. *)
Definition always_fails : PyFunction DataFrame DataFrame :=
  mkPyFunction "always_fails" (fun _ => throw (ValueError "Invalid start_value")).

(** A column-wise transformation: same rows, same identifiers. *)
Definition add_flag : PyFunction DataFrame DataFrame :=
  mkPyFunction "add_flag"
    (fun df =>
       lift (df_setitem "flag" (replicate (nrows df) (VInt 1)) df)).

(** A ledger that already holds history for the identifiers a, b and c. *)
Definition cleaned_world : World :=
  mkWorld
    (mkMetadataManager
       (<[VStr "a" := ["clean"]]> (<[VStr "b" := ["clean"]]> (<[VStr "c" := ["clean"]]> ∅)))
       [] [])
    pretty 3 sample_clock 0.

(** A table that holds row b only (rows a and c were filtered out)... *)
Definition filtered_table : DataFrame :=
  mkDataFrame 1 [("id", [VInt 2]); ("row_id", [VStr "b"])].

(** ... and a reshaping transformation that brings row a back next to it. *)
Definition restore_rows : PyFunction DataFrame DataFrame :=
  mkPyFunction "restore_rows"
    (fun _ =>
       ret (mkDataFrame 2
              [("id", [VInt 2; VInt 1]); ("row_id", [VStr "b"; VStr "a"])])).

(** An aggregation-like step: one output row with an identifier the ledger
    has never seen. *)
Definition collapse_rows : PyFunction DataFrame DataFrame :=
  mkPyFunction "collapse_rows"
    (fun df =>
       let* u := uuid4 in
       ret (mkDataFrame 1 [("total", [VInt 3]); ("row_id", [VStr u])])).

(** The sentence of C6 read word for word: under [manage_metadata], every
    identifier of the result that is absent from the input table ends the
    step with the lineage [[name]]. *)
Definition new_identifier_lineage_as_stated : Prop :=
  forall (func : PyFunction DataFrame DataFrame) (df result : DataFrame)
         (w w_g : World) (rid : Value),
    fn_call func df (snd (time_time w)) = (Ok result, w_g) ->
    lineage (manager w_g) = lineage (manager w) ->
    rid ∈ row_ids result ->
    rid ∉ row_ids df ->
    fst (get_lineage rid (snd (fn_call (manage_metadata func) df w)))
      = Ok [fn_name func].

(** The sample table after [add_flag]. *)
Definition sample_flagged : DataFrame :=
  mkDataFrame 3
    [("id", [VInt 1; VInt 2; VInt 3]);
     ("start_value", [VInt 100; VInt 0; VInt 200]);
     ("end_value", [VInt 110; VInt 20; VInt 240]);
     ("row_id", [VStr "a"; VStr "b"; VStr "c"]);
     ("flag", [VInt 1; VInt 1; VInt 1])].

(** The world right after the ledger was initialized on the sample table. *)
Definition initialized_world : World :=
  snd (initialize sample_identified sample_world).

(** A row-level function that only reads its row. *)
Definition pure_row_function {V : Type} (name : string) (g : Row -> Result V)
  : PyFunction Row V :=
  mkPyFunction name (fun row => lift (g row)).

(** What the decorated function returns for a row, and the record it
    writes, when [on_error] is the manager's [log_error]. *)
Definition isolated_value {V : Type} (g : Row -> Result V) (fallback : V)
  (row : Row) : V :=
  match g row with
  | Ok v => v
  | Raise _ => fallback
  end.

Definition isolated_record {V : Type} (name : string)
  (column_name : option string) (g : Row -> Result V) (row : Row)
  : option ErrorRecord :=
  match g row, row !! "row_id" with
  | Raise e, Some rid =>
      Some (mkErrorRecord rid (error_label name column_name) (str_exn e))
  | _, _ => None
  end.

(** The growth of a row in percent; a row whose [start_value] is not
    positive is refused. *)
Definition growth_percent (row : Row) : Result Value :=
  match row !! "start_value", row !! "end_value" with
  | Some (VInt s), Some (VInt e) =>
      if decide (0 < s)%Z then Ok (VInt ((e - s) * 100 / s))
      else Raise (ValueError "Invalid start_value")
  | _, _ => Raise (KeyError "start_value")
  end.

(** A row-level check that fails with a validation error. *)
Definition check_row : PyFunction Row Value :=
  mkPyFunction "check_row"
    (fun _ => throw (ValidationError [("age", "Missing key: age")])).

(** The sentence of C5 read word for word, for a module whose globals
    are [scope]: a non-validation exception on a row without [row_id]
    comes out of the decorated function. *)
Definition missing_identifier_propagates_as_stated (scope : Scope) : Prop :=
  forall (on_error : option ErrorCallback)
         (column_name : option string) (fallback : Value)
         (func : PyFunction Row Value) (row : Row) (w w_f : World) (e : Exn),
    fn_call func row w = (Raise e, w_f) ->
    is_validation e = false ->
    row !! "row_id" = None ->
    fst (fn_call (handle_row_errors scope on_error column_name fallback func) row w)
      = Raise e.

(** The world with more records at the end of the error ledger. *)
Definition append_errors (records : list ErrorRecord) (w : World) : World :=
  set_manager
    (mkMetadataManager (lineage (manager w))
       (errors (manager w) ++ records)
       (logs (manager w)))
    w.

(** A row-level function that always raises a plain exception. *)
Definition refuse_row : PyFunction Row Value :=
  mkPyFunction "refuse_row" (fun _ => throw (ValueError "Invalid start_value")).

(** A pipeline whose second step fails. *)
Definition failing_pipeline : list (DataFrame -> M DataFrame) :=
  [fn_call (manage_metadata add_flag);
   fn_call (manage_metadata always_fails);
   fn_call (manage_metadata add_flag)].

(** ** Row filtering ([filter_with_details]) *)

(** The cells of a column at the positions where the mask is true. *)
Fixpoint select {A : Type} (mask : list bool) (xs : list A) : list A :=
  match mask, xs with
  | b :: mask', x :: xs' => if b then x :: select mask' xs' else select mask' xs'
  | _, _ => []
  end.

(** [df[mask].reset_index(drop=True)] for a Boolean Series [mask] with the
    default index: pandas aligns the mask on the index of the table, which
    fails when the mask is shorter and drops the surplus when it is
    longer. *)
Definition df_getitem_mask (mask : list bool) (df : DataFrame) : Result DataFrame :=
  if decide (nrows df <= length mask)
  then
    let aligned := take (nrows df) mask in
    Ok (mkDataFrame (length (filter (fun b => b = true) aligned))
          (map (fun '(c, vs) => (c, select aligned vs)) (columns df)))
  else Raise (PyException "IndexingError"
                "Unalignable boolean Series provided as indexer (index of the boolean Series and of the indexed object do not match).").

(** [~series.isin(values)] *)
Definition not_isin (series values : list Value) : list bool :=
  map (fun v => negb (bool_decide (v ∈ values))) series.

(** [df.empty]: no rows or no columns. *)
Definition df_empty (df : DataFrame) : bool :=
  bool_decide (nrows df = 0 \/ columns df = []).

(** The body of [filter_with_details].  The class [MetadataManager] defines
    no [log_removed_rows], so looking that attribute up raises. *)
Definition filter_with_details_body (filter_condition : DataFrame -> M (list bool))
  (transformation_name : string) (df : DataFrame) : M DataFrame :=
  let original_df := df_copy df in
  let* mask := filter_condition df in
  let* filtered_df := lift (df_getitem_mask mask df) in
  let* ids := lift (df_getitem "row_id" original_df) in
  let* kept := lift (df_getitem "row_id" filtered_df) in
  let* removed_df := lift (df_getitem_mask (not_isin ids kept) original_df) in
  if df_empty removed_df then ret filtered_df
  else
    throw (PyException "AttributeError"
             "'MetadataManager' object has no attribute 'log_removed_rows'").

(** [filter_with_details], decorated as in the module, with its two
    configuration arguments bound. *)
Definition filter_with_details (filter_condition : DataFrame -> M (list bool))
  (transformation_name : string) : PyFunction DataFrame DataFrame :=
  manage_metadata
    (mkPyFunction "filter_with_details"
       (filter_with_details_body filter_condition transformation_name)).

(** ** [validation_function.py] *)

(** The classes a schema can name: [object], the classes of the values of
    the model, and any other class (one that has none of these values as
    instance). *)
Inductive PyType : Type :=
  | TObject
  | TNoneType
  | TInt
  | TStr
  | TOther (name : string).

(** [t.__name__] *)
Definition type_name (t : PyType) : string :=
  match t with
  | TObject => "object"
  | TNoneType => "NoneType"
  | TInt => "int"
  | TStr => "str"
  | TOther name => name
  end.

(** [type(v)] *)
Definition type_of (v : Value) : PyType :=
  match v with
  | VNone => TNoneType
  | VInt _ => TInt
  | VStr _ => TStr
  end.

Definition isinstance (v : Value) (t : PyType) : bool :=
  match t, v with
  | TObject, _ => true
  | TNoneType, VNone => true
  | TInt, VInt _ => true
  | TStr, VStr _ => true
  | _, _ => false
  end.

(** [not eval(condition, {}, {"data": data})]: the truth value of the
    expression, or the exception its evaluation raises.  The evaluator of
    Python expressions is a parameter. *)
Definition Evaluator : Type := string -> Row -> Result bool.

(** A rule: a [dict] that should have the keys condition and description. *)
Abbreviation Rule := (gmap string string).

(** The first loop of [validator], over [schema.items()]. *)
Fixpoint check_schema (data : Row) (schema : list (string * PyType))
  (errors : StrDict) : StrDict :=
  match schema with
  | [] => errors
  | (key, expected_type) :: rest =>
      match data !! key with
      | None =>
          check_schema data rest (dict_setitem key ("Missing key: " +:+ key) errors)
      | Some v =>
          if isinstance v expected_type then check_schema data rest errors
          else
            check_schema data rest
              (dict_setitem key
                 ("Expected " +:+ type_name expected_type
                    +:+ ", got " +:+ type_name (type_of v))
                 errors)
      end
  end.

(** The [try] block of the second loop for one rule: the new mapping, or
    the exception raised inside the block.  In the assignment the text on
    the right is built before [rule["description"]] is looked up. *)
Definition try_rule (eval : Evaluator) (data : Row) (rule : Rule)
  (errors : StrDict) : Result StrDict :=
  match rule !! "condition" with
  | None => Raise (KeyError "condition")
  | Some condition =>
      match eval condition data with
      | Raise e => Raise e
      | Ok true => Ok errors
      | Ok false =>
          match rule !! "description" with
          | None => Raise (KeyError "description")
          | Some description =>
              Ok (dict_setitem description ("Validation failed: " +:+ condition) errors)
          end
      end
  end.

(** The second loop of [validator]: what the [try] block raises is
    recorded under the description of the rule; a rule without description
    makes the handler itself raise. *)
Fixpoint check_rules (eval : Evaluator) (data : Row) (rules : list Rule)
  (errors : StrDict) : Result StrDict :=
  match rules with
  | [] => Ok errors
  | rule :: rest =>
      match try_rule eval data rule errors with
      | Ok errors' => check_rules eval data rest errors'
      | Raise e =>
          match rule !! "description" with
          | None => Raise (KeyError "description")
          | Some description =>
              check_rules eval data rest
                (dict_setitem description ("Rule evaluation error: " +:+ str_exn e)
                   errors)
          end
      end
  end.

(** [validator(data, schema, rules)]: [None], or a [ValidationError] with
    the mapping when it is not empty. *)
Definition validator (eval : Evaluator) (data : Row)
  (schema : list (string * PyType)) (rules : list Rule) : Result unit :=
  match check_rules eval data rules (check_schema data schema []) with
  | Raise e => Raise e
  | Ok [] => Ok tt
  | Ok errors => Raise (ValidationError errors)
  end.

(** A schema entry the data does not satisfy. *)
Definition schema_fails (data : Row) (schema : list (string * PyType))
  (key : string) : Prop :=
  exists t, (key, t) ∈ schema
    /\ match data !! key with
       | None => True
       | Some v => isinstance v t = false
       end.

(** A rule whose condition is absent, raises, or is not true. *)
Definition rule_fails (eval : Evaluator) (data : Row) (rule : Rule) : Prop :=
  match rule !! "condition" with
  | None => True
  | Some condition => eval condition data <> Ok true
  end.

(** [d.get(k)] on a mapping kept in insertion order. *)
Fixpoint dict_get (k : string) (d : StrDict) : option string :=
  match d with
  | [] => None
  | (k', v) :: rest => if decide (k' = k) then Some v else dict_get k rest
  end.

(** The text [validator] records for a schema entry the data fails. *)
Definition schema_message (data : Row) (key : string) (t : PyType) : string :=
  match data !! key with
  | None => "Missing key: " +:+ key
  | Some v => "Expected " +:+ type_name t +:+ ", got " +:+ type_name (type_of v)
  end.

(** The configuration of the tests of the validator, with an evaluator for
    its three conditions. *)
Definition sample_schema : list (string * PyType) :=
  [("age", TInt); ("name", TStr); ("email", TStr)].

Definition sample_rules : list Rule :=
  [ {[ "description" := "Age must be positive";
       "condition" := "data['age'] > 0" ]};
    {[ "description" := "Name must be at least 3 characters";
       "condition" := "len(data['name']) > 2" ]};
    {[ "description" := "Email must contain @";
       "condition" := "'@' in data['email']" ]} ].

Definition sample_eval : Evaluator :=
  fun condition data =>
    if decide (condition = "data['age'] > 0") then
      match data !! "age" with
      | Some (VInt n) => Ok (bool_decide (0 < n)%Z)
      | Some _ => Raise (PyException "TypeError" "'>' not supported")
      | None => Raise (KeyError "age")
      end
    else if decide (condition = "len(data['name']) > 2") then
      match data !! "name" with
      | Some (VStr s) => Ok (bool_decide (2 < String.length s))
      | Some _ => Raise (PyException "TypeError" "object has no len()")
      | None => Raise (KeyError "name")
      end
    else if decide (condition = "'@' in data['email']") then
      match data !! "email" with
      | Some (VStr s) => Ok (string_has "@"%char s)
      | Some _ => Raise (PyException "TypeError" "argument is not iterable")
      | None => Raise (KeyError "email")
      end
    else Raise (PyException "SyntaxError" "invalid syntax").

Definition sample_valid_data : Row :=
  {[ "age" := VInt 25; "name" := VStr "Alice"; "email" := VStr "alice@example.com" ]}.

(** The name is missing and the age is not positive. *)
Definition sample_invalid_data : Row :=
  {[ "age" := VInt (-5); "email" := VStr "alice@example.com" ]}.

(** A condition that keeps the rows whose [start_value] is positive, and
    one that keeps every row. *)
Definition positive_start : DataFrame -> M (list bool) :=
  fun df =>
    let* starts := lift (df_getitem "start_value" df) in
    ret (map (fun v => match v with VInt n => bool_decide (0 < n)%Z | _ => false end)
           starts).

Definition keep_all : DataFrame -> M (list bool) :=
  fun df => ret (replicate (nrows df) true).

(** ** Pipelines of decorated steps *)

(** A dataset-level function that reads its table only. *)
Definition pure_transformation (name : string) (g : DataFrame -> Result DataFrame)
  : PyFunction DataFrame DataFrame :=
  mkPyFunction name (fun df => lift (g df)).

(** The pipeline specs made of such functions, each under
    [manage_metadata]. *)
Definition decorated_steps (steps : list (string * (DataFrame -> Result DataFrame)))
  : list (DataFrame -> M DataFrame) :=
  map (fun '(name, g) => fn_call (manage_metadata (pure_transformation name g)))
    steps.

(** A function that hands the [row_id] column on as it got it. *)
Definition keeps_identifiers (g : DataFrame -> Result DataFrame) : Prop :=
  forall df result,
    g df = Ok result -> df_getitem "row_id" result = df_getitem "row_id" df.

(** A computation that only adds to the manager: the error ledger and the
    transformation log it leaves start with the ones it found, and no
    identifier leaves the lineage ledger. *)
Definition keeps_records {A : Type} (c : M A) : Prop :=
  forall w,
    errors (manager w) `prefix_of` errors (manager (snd (c w)))
    /\ logs (manager w) `prefix_of` logs (manager (snd (c w)))
    /\ dom (lineage (manager w)) ⊆ dom (lineage (manager (snd (c w)))).

(** A table whose rows already carry identifiers of their own. *)
Definition sample_keyed : DataFrame :=
  mkDataFrame 2
    [("row_id", [VStr "old-1"; VStr "old-2"]); ("value", [VInt 7; VInt 8])].

(** A step that returns its table with the [row_id] column dropped. *)
Definition drop_identifiers : PyFunction DataFrame DataFrame :=
  mkPyFunction "drop_identifiers"
    (fun df =>
       ret (mkDataFrame (nrows df)
              (filter (fun '(c, _) => c <> "row_id") (columns df)))).

(** Two column-wise steps, and the table the sample pipeline ends with. *)
Definition sample_steps : list (string * (DataFrame -> Result DataFrame)) :=
  [("add_flag", fun df => df_setitem "flag" (replicate (nrows df) (VInt 1)) df);
   ("add_flag_again",
    fun df => df_setitem "flag" (replicate (nrows df) (VInt 1)) df)].

Definition sample_flagged_run : DataFrame :=
  mkDataFrame 3
    [("id", [VInt 1; VInt 2; VInt 3]);
     ("start_value", [VInt 100; VInt 0; VInt 200]);
     ("end_value", [VInt 110; VInt 20; VInt 240]);
     ("row_id", [VStr "0"; VStr "1"; VStr "2"]);
     ("flag", [VInt 1; VInt 1; VInt 1])].

(** * Properties *)

(** ** Computations *)

Ltac unfold_M :=
  unfold bind, ret, lift, throw, try_except, modify_manager, with_lineage in *.

Lemma uuid_list_spec (n : nat) (w : World) :
  uuid_list n w =
    (Ok (map (uuid_source w) (seq (uuid_calls w) n)),
     mkWorld (manager w) (uuid_source w) (uuid_calls w + n)
             (clock w) (clock_reads w)).
Proof.
  revert w. induction n as [|n IH]; intros w; simpl.
  - unfold ret. rewrite Nat.add_0_r. by destruct w.
  - unfold bind at 1. unfold uuid4 at 1. unfold bind at 1.
    rewrite IH. unfold ret. simpl. do 3 f_equal. lia.
Qed.

Lemma uuid_list_length (n : nat) (w : World) :
  length (map (uuid_source w) (seq (uuid_calls w) n)) = n.
Proof. by rewrite length_map, length_seq. Qed.

(** ** Tables *)

Lemma column_assign_absent (c : string) (vs : list Value) cols :
  column_lookup c cols = None ->
  column_assign c vs cols = cols ++ [(c, vs)].
Proof.
  induction cols as [|[c' vs'] cols IH]; simpl; [done|].
  case_decide; [done|]. intros H'. by rewrite IH.
Qed.

Lemma column_lookup_assign_ne (c c' : string) (vs : list Value) cols :
  c' <> c ->
  column_lookup c' (column_assign c vs cols) = column_lookup c' cols.
Proof.
  intros Hne. induction cols as [|[c0 vs0] cols IH]; simpl.
  - by rewrite decide_False.
  - destruct (decide (c0 = c)) as [->|Hc0]; simpl.
    + by rewrite !decide_False.
    + case_decide; [done|]. apply IH.
Qed.

Lemma column_lookup_assign_eq (c : string) (vs : list Value) cols :
  column_lookup c (column_assign c vs cols) = Some vs.
Proof.
  induction cols as [|[c0 vs0] cols IH]; simpl.
  - by rewrite decide_True.
  - destruct (decide (c0 = c)) as [->|Hc0]; simpl.
    + by rewrite decide_True.
    + by rewrite decide_False.
Qed.

(** [add_row_id] never raises: the list of new identifiers always has the
    length of the table. *)
Lemma add_row_id_spec (df : DataFrame) (w : World) :
  add_row_id df w =
    (Ok (mkDataFrame (nrows df)
           (column_assign "row_id"
              (map VStr (map (uuid_source w) (seq (uuid_calls w) (nrows df))))
              (columns df))),
     mkWorld (manager w) (uuid_source w) (uuid_calls w + nrows df)
             (clock w) (clock_reads w)).
Proof.
  unfold add_row_id, bind. simpl. rewrite uuid_list_spec.
  unfold lift, df_setitem. simpl.
  rewrite decide_True; [done|]. by rewrite !length_map, length_seq.
Qed.

Lemma df_getitem_row_ids (df : DataFrame) (ids : list Value) :
  df_getitem "row_id" df = Ok ids -> row_ids df = ids.
Proof.
  unfold df_getitem, row_ids.
  destruct (column_lookup "row_id" (columns df)); congruence.
Qed.

Lemma df_getitem_missing (df : DataFrame) (e : Exn) :
  df_getitem "row_id" df = Raise e -> row_ids df = [] /\ e = KeyError "row_id".
Proof.
  unfold df_getitem, row_ids.
  destruct (column_lookup "row_id" (columns df)); [done|].
  intros [= <-]. done.
Qed.

(** ** The lineage ledger *)

Lemma insert_loop_lookup_in (v : list string) (ids : list Value) (lin : Lineage)
  (k : Value) :
  k ∈ ids -> foldl (fun l rid => <[rid := v]> l) lin ids !! k = Some v.
Proof.
  induction ids as [|a ids IH] using rev_ind; [by intros ?%elem_of_nil|].
  rewrite foldl_app. simpl. intros [Hin | ->%list_elem_of_singleton]%elem_of_app.
  - destruct (decide (a = k)) as [->|Hne].
    + apply lookup_insert_eq.
    + rewrite lookup_insert_ne; auto.
  - apply lookup_insert_eq.
Qed.

Lemma insert_loop_lookup_notin (v : list string) (ids : list Value) (lin : Lineage)
  (k : Value) :
  k ∉ ids -> foldl (fun l rid => <[rid := v]> l) lin ids !! k = lin !! k.
Proof.
  induction ids as [|a ids IH] using rev_ind; [done|].
  rewrite foldl_app. simpl. intros [Hids Ha]%not_elem_of_app.
  rewrite lookup_insert_ne; [by apply IH|].
  intros ->. apply Ha. by apply list_elem_of_singleton.
Qed.

Lemma initialize_ok (df : DataFrame) (w w' : World) :
  initialize df w = (Ok tt, w') ->
  lineage (manager w') =
    foldl (fun l rid => <[rid := []]> l) (lineage (manager w)) (row_ids df)
  /\ errors (manager w') = errors (manager w)
  /\ logs (manager w') = logs (manager w).
Proof.
  unfold initialize. unfold_M.
  destruct (df_getitem "row_id" df) as [ids|e] eqn:Hids; [|done].
  apply df_getitem_row_ids in Hids as ->. by intros [= <-].
Qed.

(** C10: the three queries [get_lineage], [get_errors] and [get_logs]
    return the world they were given, whatever the identifier asked for and
    however many queries are run; in particular asking for the lineage of
    an identifier with no entry adds no entry. *)
Theorem queries_do_not_modify_manager (qs : list Query) (row_id : Value) (w : World) :
  snd (get_lineage row_id w) = w
  /\ snd (get_errors w) = w
  /\ snd (get_logs w) = w
  /\ foldl (fun w' q => run_query q w') w qs = w
  /\ dom (lineage (manager (snd (get_lineage row_id w)))) = dom (lineage (manager w)).
Proof.
  repeat split.
  induction qs as [|q qs IH]; [done|]. simpl. by destruct q.
Qed.

(** For contrast: subscripting the [defaultdict], which [get_lineage] does
    not do, would add the missing entry. *)
Lemma dd_getitem_inserts (k : Value) (d : Lineage) :
  d !! k = None -> snd (dd_getitem k d) !! k = Some [].
Proof. intros H. unfold dd_getitem. rewrite H. apply lookup_insert_eq. Qed.

(** C9: after [initialize] has run on a table, the lineage of every
    identifier of that table is the empty list; the lineage of an
    identifier the ledger does not know is the empty list; and
    [get_lineage] never raises. *)
Theorem lineage_query_after_initialize (df : DataFrame) (w w' : World)
  (Hinit : initialize df w = (Ok tt, w')) :
  (forall rid, rid ∈ row_ids df -> get_lineage rid w' = (Ok [], w'))
  /\ (forall rid (w0 : World),
        lineage (manager w0) !! rid = None -> get_lineage rid w0 = (Ok [], w0))
  /\ (forall rid (w0 : World), raises (fst (get_lineage rid w0)) = false).
Proof.
  apply initialize_ok in Hinit as (Hlin & _ & _).
  split; [|split].
  - intros rid Hin. unfold get_lineage, dd_get.
    by rewrite Hlin, insert_loop_lookup_in.
  - intros rid w0 Hnone. unfold get_lineage, dd_get. by rewrite Hnone.
  - done.
Qed.

Lemma lineage_query_after_initialize_witness :
  initialize sample_identified sample_world
    = (Ok tt, snd (initialize sample_identified sample_world))
  /\ ((forall rid, rid ∈ row_ids sample_identified ->
         get_lineage rid (snd (initialize sample_identified sample_world))
           = (Ok [], snd (initialize sample_identified sample_world)))
      /\ (forall rid (w0 : World),
            lineage (manager w0) !! rid = None -> get_lineage rid w0 = (Ok [], w0))
      /\ (forall rid (w0 : World), raises (fst (get_lineage rid w0)) = false)).
Proof.
  split; [reflexivity|].
  apply (lineage_query_after_initialize sample_identified sample_world).
  reflexivity.
Defined.

(** ** Row identity assignment *)

(** C8: for a table object without a [row_id] column, [add_row_id] returns a
    new object and leaves the given one as it was; the new table has the
    same number of rows and the same columns in the same order, followed by
    a [row_id] column that holds, row by row, the identifiers [uuid4]
    handed out during the call; when [uuid4] never repeats an identifier
    they are pairwise distinct.  The function on table values computes the
    same table. *)
Theorem add_row_id_fresh_identifiers (r : nat) (store : gmap nat DataFrame)
  (df : DataFrame) (w : World)
  (Hobj : store !! r = Some df)
  (Hnew : column_lookup "row_id" (columns df) = None)
  (Huuid : Inj (=) (=) (uuid_source w)) :
  exists r' store' w' out ids,
    add_row_id_ref r store w = (Ok (r', store'), w')
    /\ (r' ∉ dom store)
    /\ store' !! r = Some df
    /\ (forall r0, r0 ∈ dom store -> store' !! r0 = store !! r0)
    /\ store' !! r' = Some out
    /\ add_row_id df w = (Ok out, w')
    /\ nrows out = nrows df
    /\ columns out = columns df ++ [("row_id", map VStr ids)]
    /\ (forall c, c <> "row_id" ->
          column_lookup c (columns out) = column_lookup c (columns df))
    /\ ids = map (uuid_source w) (seq (uuid_calls w) (nrows df))
    /\ length ids = nrows df
    /\ NoDup ids.
Proof.
  set (ids := map (uuid_source w) (seq (uuid_calls w) (nrows df))).
  set (out := mkDataFrame (nrows df) (columns df ++ [("row_id", map VStr ids)])).
  set (r' := fresh (dom store)).
  assert (Hfresh : r' ∉ dom store) by apply is_fresh.
  assert (Hne : r' <> r).
  { intros ->. apply Hfresh. apply elem_of_dom. eauto. }
  assert (Hdf : df_copy df = df) by by destruct df.
  exists r', (<[r' := out]> (<[r' := df_copy df]> store)),
    (mkWorld (manager w) (uuid_source w) (uuid_calls w + nrows df)
       (clock w) (clock_reads w)), out, ids.
  repeat split.
  - unfold add_row_id_ref. fold r'.
    rewrite (lookup_total_correct _ _ _ Hobj).
    rewrite lookup_total_insert_eq.
    unfold bind. rewrite uuid_list_spec. unfold lift, df_setitem. simpl.
    rewrite decide_True by by rewrite !length_map, length_seq.
    by rewrite column_assign_absent.
  - done.
  - by rewrite !lookup_insert_ne.
  - intros r0 Hr0. rewrite !lookup_insert_ne; [done|by intros ->..].
  - apply lookup_insert_eq.
  - rewrite add_row_id_spec. by rewrite column_assign_absent.
  - intros c Hc. subst out. simpl.
    rewrite <- (column_assign_absent "row_id" (map VStr ids)) by done.
    by apply column_lookup_assign_ne.
  - subst ids. by rewrite length_map, length_seq.
  - subst ids. apply (NoDup_fmap_2 (uuid_source w)). apply NoDup_seq.
Qed.

Lemma add_row_id_fresh_identifiers_witness :
  exists r' store' w' out ids,
    add_row_id_ref 0 {[0 := sample_input]} sample_world = (Ok (r', store'), w')
    /\ (r' ∉ dom ({[0 := sample_input]} : gmap nat DataFrame))
    /\ store' !! 0 = Some sample_input
    /\ (forall r0, r0 ∈ dom ({[0 := sample_input]} : gmap nat DataFrame) ->
          store' !! r0 = ({[0 := sample_input]} : gmap nat DataFrame) !! r0)
    /\ store' !! r' = Some out
    /\ add_row_id sample_input sample_world = (Ok out, w')
    /\ nrows out = nrows sample_input
    /\ columns out = columns sample_input ++ [("row_id", map VStr ids)]
    /\ (forall c, c <> "row_id" ->
          column_lookup c (columns out) = column_lookup c (columns sample_input))
    /\ ids = map (uuid_source sample_world)
               (seq (uuid_calls sample_world) (nrows sample_input))
    /\ length ids = nrows sample_input
    /\ NoDup ids.
Proof.
  apply (add_row_id_fresh_identifiers 0 {[0 := sample_input]} sample_input sample_world).
  - reflexivity.
  - reflexivity.
  - exact pretty_nat_inj.
Defined.

Example add_row_id_sample :
  fst (add_row_id sample_input sample_world) =
    Ok (mkDataFrame 3
          [("id", [VInt 1; VInt 2; VInt 3]);
           ("start_value", [VInt 100; VInt 0; VInt 200]);
           ("end_value", [VInt 110; VInt 20; VInt 240]);
           ("row_id", [VStr "0"; VStr "1"; VStr "2"])]).
Proof. vm_compute. reflexivity. Qed.

(** ** The pipeline runner *)

Lemma run_transformations_app (pre post : list (DataFrame -> M DataFrame))
  (df : DataFrame) (w : World) :
  run_transformations (pre ++ post) df w =
    match run_transformations pre df w with
    | (Ok d, w') => run_transformations post d w'
    | (Raise e, w') => (Raise e, w')
    end.
Proof.
  revert df w. induction pre as [|t pre IH]; intros df w; simpl; [done|].
  unfold bind. destruct (t df w) as [[d|e] w1]; [apply IH|done].
Qed.

Lemma run_transformations_applied (specs : list (DataFrame -> M DataFrame))
  (df : DataFrame) (w : World) (r : Result DataFrame) (w' : World) :
  run_transformations specs df w = (r, w') <-> applied_in_order specs df w r w'.
Proof.
  split.
  - revert df w. induction specs as [|t specs IH]; intros df w; simpl.
    + unfold ret. intros [= <- <-]. constructor.
    + unfold bind. destruct (t df w) as [[d|e] w1] eqn:Ht.
      * intros Hrun. eapply applied_next; eauto.
      * intros [= <- <-]. by apply applied_raise.
  - induction 1 as [df w|t rest df w df' w1 r w2 Ht _ IH|t rest df w e w1 Ht]; simpl.
    + done.
    + unfold bind. by rewrite Ht.
    + unfold bind. by rewrite Ht.
Qed.

Lemma initialize_identified (n : nat) (ids : list Value) cols (w : World) :
  initialize (mkDataFrame n (column_assign "row_id" ids cols)) w =
    (Ok tt,
     set_manager
       (with_lineage (fun lin => foldl (fun l rid => <[rid := []]> l) lin ids)
          (manager w)) w).
Proof.
  unfold initialize, bind, lift, df_getitem. simpl.
  by rewrite column_lookup_assign_eq.
Qed.

(** C3: the callable built by [build_pipeline] first adds the [row_id]
    column, then initializes the ledger on the table with identifiers (every
    identifier gets an empty lineage), then applies the transformations in
    list order, each to the result of the one before; its outcome is the
    final table, or the exception of the first transformation that raises,
    and then nothing after that transformation in the list is applied: the
    outcome and the world are those of the list cut after it. *)
Theorem build_pipeline_runs_in_order (pipeline_specs : list (DataFrame -> M DataFrame))
  (df : DataFrame) (w : World) :
  exists identified w0 w1,
    add_row_id df w = (Ok identified, w0)
    /\ is_Some (column_lookup "row_id" (columns identified))
    /\ initialize identified w0 = (Ok tt, w1)
    /\ (forall rid, rid ∈ row_ids identified ->
          lineage (manager w1) !! rid = Some [])
    /\ (forall r w',
          build_pipeline pipeline_specs df w = (r, w') <->
          applied_in_order pipeline_specs identified w1 r w')
    /\ (forall pre t post d wd e we,
          pipeline_specs = pre ++ t :: post ->
          applied_in_order pre identified w1 (Ok d) wd ->
          t d wd = (Raise e, we) ->
          build_pipeline pipeline_specs df w = (Raise e, we)
          /\ build_pipeline (pre ++ [t]) df w = (Raise e, we)).
Proof.
  eexists _, _, _. split; [apply add_row_id_spec|].
  split; [simpl; rewrite column_lookup_assign_eq; eauto|].
  split; [apply initialize_identified|].
  assert (Hbuild : forall specs,
    build_pipeline specs df w =
      run_transformations specs
        (mkDataFrame (nrows df)
           (column_assign "row_id"
              (map VStr (map (uuid_source w) (seq (uuid_calls w) (nrows df))))
              (columns df)))
        (set_manager
           (with_lineage
              (fun lin => foldl (fun l rid => <[rid := []]> l) lin
                 (map VStr (map (uuid_source w) (seq (uuid_calls w) (nrows df)))))
              (manager
                 (mkWorld (manager w) (uuid_source w) (uuid_calls w + nrows df)
                    (clock w) (clock_reads w))))
           (mkWorld (manager w) (uuid_source w) (uuid_calls w + nrows df)
              (clock w) (clock_reads w)))).
  { intros specs. unfold build_pipeline. unfold bind at 1.
    rewrite add_row_id_spec. unfold bind at 1.
    by rewrite initialize_identified. }
  split; [|split].
  - intros rid Hin. simpl. apply insert_loop_lookup_in.
    unfold row_ids in Hin. simpl in Hin.
    by rewrite column_lookup_assign_eq in Hin.
  - intros r w'. rewrite Hbuild. apply run_transformations_applied.
  - intros pre t post d wd e we -> Hpre Ht.
    apply run_transformations_applied in Hpre.
    rewrite !Hbuild, !run_transformations_app, Hpre. simpl.
    unfold bind. by rewrite Ht.
Qed.

(** A run whose second step fails: the exception comes out, the first step
    is the only one in the transformation log, the failure is the only
    record of the error ledger, and every row has been through the first
    step only. *)
Example build_pipeline_failure_sample :
  fst (build_pipeline failing_pipeline sample_input sample_world)
    = Raise (ValueError "Invalid start_value")
  /\ map log_name
       (logs (manager (snd (build_pipeline failing_pipeline sample_input sample_world))))
     = ["add_flag"]
  /\ errors (manager (snd (build_pipeline failing_pipeline sample_input sample_world)))
     = [mkErrorRecord (VStr "global") "always_fails" "Invalid start_value"]
  /\ fst (get_lineage (VStr "1")
            (snd (build_pipeline failing_pipeline sample_input sample_world)))
     = Ok ["add_flag"].
Proof. repeat split; vm_compute; reflexivity. Qed.

Example build_pipeline_success_sample :
  fst (build_pipeline [fn_call (manage_metadata add_flag)] sample_input sample_world)
    = Ok (mkDataFrame 3
            [("id", [VInt 1; VInt 2; VInt 3]);
             ("start_value", [VInt 100; VInt 0; VInt 200]);
             ("end_value", [VInt 110; VInt 20; VInt 240]);
             ("row_id", [VStr "0"; VStr "1"; VStr "2"]);
             ("flag", [VInt 1; VInt 1; VInt 1])]).
Proof. vm_compute. reflexivity. Qed.

(** ** Lineage updates *)

Lemma dd_append_insert (k : Value) (x : string) (d : Lineage) :
  dd_append k x d = <[k := dd_get k [] d ++ [x]]> d.
Proof.
  unfold dd_append, dd_getitem, dd_get.
  destruct (d !! k); [done|]. by rewrite insert_insert_eq.
Qed.

Lemma dd_get_append (a k : Value) (x : string) (d : Lineage) :
  dd_get k [] (dd_append a x d) =
    if decide (a = k) then dd_get k [] d ++ [x] else dd_get k [] d.
Proof.
  rewrite dd_append_insert. unfold dd_get at 1.
  case_decide as Hk.
  - subst a. by rewrite lookup_insert_eq.
  - by rewrite lookup_insert_ne.
Qed.

Lemma occurrences_snoc (k a : Value) (ids : list Value) :
  occurrences k (ids ++ [a]) =
    if decide (a = k) then S (occurrences k ids) else occurrences k ids.
Proof.
  unfold occurrences. rewrite filter_app, length_app.
  rewrite filter_cons, filter_nil. case_decide; simpl; lia.
Qed.

Lemma occurrences_notin (k : Value) (ids : list Value) :
  k ∉ ids -> occurrences k ids = 0.
Proof.
  intros Hnot. unfold occurrences.
  induction ids as [|a ids IH]; [done|].
  apply not_elem_of_cons in Hnot as [Hne Hnot].
  rewrite filter_cons. rewrite decide_False by done.
  by apply IH.
Qed.

Lemma occurrences_NoDup (k : Value) (ids : list Value) :
  NoDup ids -> k ∈ ids -> occurrences k ids = 1.
Proof.
  unfold occurrences.
  induction 1 as [|a ids Hnot Hnd IH]; [by intros ?%elem_of_nil|].
  rewrite filter_cons. intros [->|Hin]%elem_of_cons.
  - rewrite decide_True by done. simpl. f_equal.
    by apply (occurrences_notin a ids).
  - rewrite decide_False; [by apply IH|]. intros ->. done.
Qed.

Lemma occurrences_Permutation (k : Value) (ids ids' : list Value) :
  ids ≡ₚ ids' -> occurrences k ids = occurrences k ids'.
Proof. intros Hp. unfold occurrences. by rewrite Hp. Qed.

(** The loop of [update_lineage]: every row of the table appends once to
    the entry of its identifier. *)
Lemma append_loop_lineage (t : string) (ids : list Value) (lin : Lineage) (k : Value) :
  dd_get k [] (foldl (fun l rid => dd_append rid t l) lin ids) =
    dd_get k [] lin ++ replicate (occurrences k ids) t.
Proof.
  induction ids as [|a ids IH] using rev_ind.
  - simpl. by rewrite app_nil_r.
  - rewrite foldl_app. simpl. rewrite dd_get_append, occurrences_snoc.
    case_decide; [|done].
    by rewrite IH, replicate_S_end, app_assoc.
Qed.

Lemma append_loop_dom (t : string) (ids : list Value) (lin : Lineage) :
  dom (foldl (fun l rid => dd_append rid t l) lin ids) =
    dom lin ∪ list_to_set ids.
Proof.
  induction ids as [|a ids IH] using rev_ind.
  - simpl. by rewrite union_empty_r_L.
  - rewrite foldl_app. simpl. rewrite dd_append_insert, dom_insert_L, IH.
    rewrite list_to_set_app_L. simpl. rewrite union_empty_r_L.
    by rewrite (comm_L (∪) {[a]}), (assoc_L (∪)).
Qed.

(** ** The dataset-level decorator *)

Lemma manage_metadata_name (func : PyFunction DataFrame DataFrame) :
  fn_name (manage_metadata func) = fn_name func.
Proof. reflexivity. Qed.

Lemma manage_metadata_raise (func : PyFunction DataFrame DataFrame)
  (df : DataFrame) (w w_g : World) (e : Exn) :
  fn_call func df (snd (time_time w)) = (Raise e, w_g) ->
  fn_call (manage_metadata func) df w =
    (Raise e,
     set_manager
       (mkMetadataManager (lineage (manager w_g))
          (errors (manager w_g)
             ++ [mkErrorRecord (VStr "global") (fn_name func) (str_exn e)])
          (logs (manager w_g)))
       w_g).
Proof.
  intros Hcall. simpl in *. unfold bind at 1. simpl.
  unfold try_except, bind at 1. by rewrite Hcall.
Qed.

Lemma manage_metadata_ok (func : PyFunction DataFrame DataFrame)
  (df result : DataFrame) (w w_g : World) (ids : list Value) :
  fn_call func df (snd (time_time w)) = (Ok result, w_g) ->
  df_getitem "row_id" result = Ok ids ->
  exists w',
    fn_call (manage_metadata func) df w = (Ok result, w')
    /\ lineage (manager w') =
         foldl (fun l rid => dd_append rid (fn_name func) l)
           (lineage (manager w_g)) ids
    /\ errors (manager w') = errors (manager w_g)
    /\ logs (manager w') =
         logs (manager w_g)
           ++ [mkLogRecord (fn_name func)
                 (PrimFloat.sub (clock w_g (clock_reads w_g)) (clock w (clock_reads w)))
                 [("row_count", VInt (Z.of_nat (nrows result)))]].
Proof.
  intros Hcall Hids. eexists. split.
  - simpl in *. unfold bind at 1. simpl.
    unfold try_except, bind at 1. rewrite Hcall.
    unfold update_lineage, bind at 1. unfold bind at 1, lift.
    rewrite Hids. unfold_M. simpl. reflexivity.
  - done.
Qed.

(** C2: when the wrapped transformation raises [e], the decorated call
    raises the same [e]; the error ledger is the one the transformation left
    with exactly one more record, whose subject is "global" and whose
    transformation is the name of the wrapped function; the transformation
    log and the lineage ledger are as the transformation left them, so no
    log record is written for the call. *)
Theorem manage_metadata_failure (func : PyFunction DataFrame DataFrame)
  (df : DataFrame) (w w_g : World) (e : Exn)
  (Hraise : fn_call func df (snd (time_time w)) = (Raise e, w_g)) :
  exists w',
    fn_call (manage_metadata func) df w = (Raise e, w')
    /\ errors (manager w') =
         errors (manager w_g)
           ++ [mkErrorRecord (VStr "global") (fn_name func) (str_exn e)]
    /\ logs (manager w') = logs (manager w_g)
    /\ lineage (manager w') = lineage (manager w_g)
    /\ (manager w_g = manager w ->
          errors (manager w') =
            errors (manager w)
              ++ [mkErrorRecord (VStr "global") (fn_name (manage_metadata func))
                    (str_exn e)]
          /\ logs (manager w') = logs (manager w)).
Proof.
  eexists. split; [by apply manage_metadata_raise|].
  simpl. do 3 (split; [done|]).
  intros <-. done.
Qed.

Lemma manage_metadata_failure_witness :
  exists w',
    fn_call (manage_metadata always_fails) sample_identified sample_world
      = (Raise (ValueError "Invalid start_value"), w')
    /\ errors (manager w') =
         errors (manager (snd (time_time sample_world)))
           ++ [mkErrorRecord (VStr "global") (fn_name always_fails)
                 (str_exn (ValueError "Invalid start_value"))]
    /\ logs (manager w') = logs (manager (snd (time_time sample_world)))
    /\ lineage (manager w') = lineage (manager (snd (time_time sample_world)))
    /\ (manager (snd (time_time sample_world)) = manager sample_world ->
          errors (manager w') =
            errors (manager sample_world)
              ++ [mkErrorRecord (VStr "global")
                    (fn_name (manage_metadata always_fails))
                    (str_exn (ValueError "Invalid start_value"))]
          /\ logs (manager w') = logs (manager sample_world)).
Proof.
  apply (manage_metadata_failure always_fails sample_identified sample_world
           (snd (time_time sample_world)) (ValueError "Invalid start_value")).
  reflexivity.
Defined.

Example manage_metadata_failure_sample :
  errors (manager (snd (fn_call (manage_metadata always_fails)
                          sample_identified sample_world)))
    = [mkErrorRecord (VStr "global") "always_fails" "Invalid start_value"]
  /\ logs (manager (snd (fn_call (manage_metadata always_fails)
                           sample_identified sample_world))) = [].
Proof. split; reflexivity. Qed.

(** C7: for a transformation that returns a table with the same
    identifiers as its input, one row each, and does not itself write the
    lineage ledger, on a table whose identifiers are pairwise distinct and
    all known to the ledger: the decorated call returns the result, the
    lineage of every identifier of the input is its lineage before the call
    followed by the name of the wrapped function, and the ledger has the
    same identifiers as before. *)
Theorem one_to_one_step_extends_lineage (func : PyFunction DataFrame DataFrame)
  (df result : DataFrame) (w w_g : World) (ids : list Value)
  (Hcall : fn_call func df (snd (time_time w)) = (Ok result, w_g))
  (Hframe : lineage (manager w_g) = lineage (manager w))
  (Hcol : df_getitem "row_id" result = Ok ids)
  (Hsame : ids ≡ₚ row_ids df)
  (Hdistinct : NoDup (row_ids df))
  (Hknown : forall rid, rid ∈ row_ids df -> is_Some (lineage (manager w) !! rid)) :
  exists w',
    fn_call (manage_metadata func) df w = (Ok result, w')
    /\ (forall rid l,
          rid ∈ row_ids df ->
          get_lineage rid w = (Ok l, w) ->
          get_lineage rid w' = (Ok (l ++ [fn_name func]), w'))
    /\ dom (lineage (manager w')) = dom (lineage (manager w)).
Proof.
  destruct (manage_metadata_ok func df result w w_g ids Hcall Hcol)
    as (w' & Hrun & Hlin & _ & _).
  exists w'. split; [done|]. split.
  - intros rid l Hin. unfold get_lineage. intros [= <-].
    rewrite Hlin, Hframe, append_loop_lineage.
    rewrite (occurrences_Permutation rid ids (row_ids df)) by done.
    by rewrite occurrences_NoDup.
  - rewrite Hlin, Hframe, append_loop_dom.
    apply set_eq. intros k. rewrite elem_of_union, elem_of_list_to_set, Hsame.
    split; [|by left]. intros [?|Hin]; [done|].
    apply elem_of_dom. by apply Hknown.
Qed.

Lemma one_to_one_step_extends_lineage_witness :
  exists w',
    fn_call (manage_metadata add_flag) sample_identified initialized_world
      = (Ok sample_flagged, w')
    /\ (forall rid l,
          rid ∈ row_ids sample_identified ->
          get_lineage rid initialized_world = (Ok l, initialized_world) ->
          get_lineage rid w' = (Ok (l ++ [fn_name add_flag]), w'))
    /\ dom (lineage (manager w')) = dom (lineage (manager initialized_world)).
Proof.
  apply (one_to_one_step_extends_lineage add_flag sample_identified sample_flagged
           initialized_world (snd (time_time initialized_world))
           [VStr "a"; VStr "b"; VStr "c"]).
  - reflexivity.
  - reflexivity.
  - reflexivity.
  - reflexivity.
  - apply (bool_decide_unpack _). vm_compute. exact I.
  - intros rid Hin. apply list_elem_of_In in Hin. simpl in Hin.
    destruct Hin as [<-|[<-|[<-|[]]]]; vm_compute; eauto.
Defined.

Example one_to_one_step_sample :
  fst (get_lineage (VStr "b")
         (snd (fn_call (manage_metadata add_flag) sample_identified
                 initialized_world)))
    = Ok ["add_flag"].
Proof. vm_compute. reflexivity. Qed.

(** A table whose identifiers repeat (what [explode_column] leaves behind)
    gets one entry per row, not per identifier. *)
Lemma repeated_identifier_grows_per_row (func : PyFunction DataFrame DataFrame)
  (df result : DataFrame) (w w_g : World) (ids : list Value) (rid : Value) :
  fn_call func df (snd (time_time w)) = (Ok result, w_g) ->
  lineage (manager w_g) = lineage (manager w) ->
  df_getitem "row_id" result = Ok ids ->
  exists w',
    fn_call (manage_metadata func) df w = (Ok result, w')
    /\ dd_get rid [] (lineage (manager w')) =
         dd_get rid [] (lineage (manager w))
           ++ replicate (occurrences rid ids) (fn_name func).
Proof.
  intros Hcall Hframe Hcol.
  destruct (manage_metadata_ok func df result w w_g ids Hcall Hcol)
    as (w' & Hrun & Hlin & _ & _).
  exists w'. split; [done|]. by rewrite Hlin, Hframe, append_loop_lineage.
Qed.

(** ** New identifiers *)

(** C6, as amended: under [manage_metadata], an identifier of the result
    that one row carries and for which the ledger holds no history when the
    step starts (no entry, or an empty one) ends the step with the lineage
    [[name]], whatever the lineage of the other identifiers is; the wrapped
    transformation is one that does not itself write the lineage ledger. *)
Theorem reshaping_step_starts_lineage (func : PyFunction DataFrame DataFrame)
  (df result : DataFrame) (w w_g : World) (ids : list Value) (rid : Value)
  (Hcall : fn_call func df (snd (time_time w)) = (Ok result, w_g))
  (Hframe : lineage (manager w_g) = lineage (manager w))
  (Hcol : df_getitem "row_id" result = Ok ids)
  (Honce : occurrences rid ids = 1)
  (Hfresh : get_lineage rid w = (Ok [], w)) :
  exists w',
    fn_call (manage_metadata func) df w = (Ok result, w')
    /\ get_lineage rid w' = (Ok [fn_name func], w').
Proof.
  destruct (repeated_identifier_grows_per_row func df result w w_g ids rid
              Hcall Hframe Hcol) as (w' & Hrun & Hlin).
  exists w'. split; [done|].
  unfold get_lineage in *. injection Hfresh as Hfresh.
  by rewrite Hlin, Hfresh, Honce.
Qed.

Lemma reshaping_step_starts_lineage_witness :
  exists w',
    fn_call (manage_metadata collapse_rows) filtered_table cleaned_world
      = (Ok (mkDataFrame 1 [("total", [VInt 3]); ("row_id", [VStr "3"])]), w')
    /\ get_lineage (VStr "3") w' = (Ok [fn_name collapse_rows], w').
Proof.
  apply (reshaping_step_starts_lineage collapse_rows filtered_table
           (mkDataFrame 1 [("total", [VInt 3]); ("row_id", [VStr "3"])])
           cleaned_world
           (snd (fn_call collapse_rows filtered_table (snd (time_time cleaned_world))))
           [VStr "3"] (VStr "3")).
  - reflexivity.
  - reflexivity.
  - reflexivity.
  - reflexivity.
  - reflexivity.
Defined.

(** The sentence of C6 fails on an identifier that is absent from the input
    table but has history in the ledger: row a comes back with the lineage
    [["clean"; "restore_rows"]]. *)
Lemma new_identifier_lineage_counterexample : ~ new_identifier_lineage_as_stated.
Proof.
  intros Hclaim.
  specialize (Hclaim restore_rows filtered_table
                (mkDataFrame 2
                   [("id", [VInt 2; VInt 1]); ("row_id", [VStr "b"; VStr "a"])])
                cleaned_world (snd (time_time cleaned_world)) (VStr "a")).
  assert (Hlin :
    fst (get_lineage (VStr "a")
           (snd (fn_call (manage_metadata restore_rows) filtered_table cleaned_world)))
      = Ok ["clean"; "restore_rows"]) by (vm_compute; reflexivity).
  rewrite Hlin in Hclaim.
  assert (Habsurd : Ok ["clean"; "restore_rows"] = Ok [fn_name restore_rows]).
  { apply Hclaim.
    - reflexivity.
    - reflexivity.
    - apply list_elem_of_In. simpl. auto.
    - intros Hin%list_elem_of_In. simpl in Hin. destruct Hin as [[=]|[]]. }
  discriminate Habsurd.
Qed.

(** [update_lineage] itself resets the entries of [new_rows] when a caller
    passes them; [manage_metadata] never does. *)
Lemma update_lineage_new_rows (df : DataFrame) (t : string) (rows : list Value)
  (ids : list Value) (w : World) (rid : Value) :
  df_getitem "row_id" df = Ok ids ->
  rid ∈ rows ->
  exists w',
    update_lineage df t (Some rows) w = (Ok tt, w')
    /\ get_lineage rid w' = (Ok [t], w').
Proof.
  intros Hids Hin. unfold update_lineage. unfold bind at 1, lift. rewrite Hids.
  destruct rows as [|r rows]; [by apply elem_of_nil in Hin|].
  unfold_M. eexists. split; [reflexivity|].
  unfold get_lineage, dd_get. simpl.
  match goal with
  | |- context [foldl _ (<[r := [t]]> ?lin) rows] =>
      pose proof (insert_loop_lookup_in [t] (r :: rows) lin rid Hin) as Hlook
  end.
  simpl in Hlook. by rewrite Hlook.
Qed.

(** ** The row-level decorator *)

Lemma append_errors_nil (w : World) : append_errors [] w = w.
Proof.
  destruct w as [[lin errs lgs] src n clk k]. unfold append_errors, set_manager.
  simpl. by rewrite app_nil_r.
Qed.

Lemma append_errors_app (r1 r2 : list ErrorRecord) (w : World) :
  append_errors r2 (append_errors r1 w) = append_errors (r1 ++ r2) w.
Proof. unfold append_errors, set_manager. simpl. by rewrite app_assoc. Qed.

Lemma log_error_appends (rid : Value) (t : string) (e : Exn) (w : World) :
  log_error rid t e w = (Ok tt, append_errors [mkErrorRecord rid t (str_exn e)] w).
Proof. reflexivity. Qed.

Lemma handle_row_errors_name {V : Type} (scope : Scope)
  (on_error : option ErrorCallback) (column_name : option string) (fallback : V)
  (func : PyFunction Row V) :
  fn_name (handle_row_errors scope on_error column_name fallback func) = fn_name func.
Proof. reflexivity. Qed.

(** A call that returns is passed through, whatever the globals hold: no
    [except] clause is looked at. *)
Lemma handle_row_errors_success {V : Type} (scope : Scope)
  (on_error : option ErrorCallback) (column_name : option string) (fallback : V)
  (func : PyFunction Row V) (row : Row) (w w_f : World) (v : V) :
  fn_call func row w = (Ok v, w_f) ->
  fn_call (handle_row_errors scope on_error column_name fallback func) row w
    = (Ok v, w_f).
Proof. intros Hcall. simpl. by rewrite Hcall. Qed.

(** Where the globals do not bind [ValidationError], every exception of
    the wrapped call comes out as the [NameError] of the first [except]
    clause: no fallback value, and the callback is not called. *)
Lemma handle_row_errors_unbound_class {V : Type} (scope : Scope)
  (on_error : option ErrorCallback) (column_name : option string) (fallback : V)
  (func : PyFunction Row V) (row : Row) (w w_f : World) (e : Exn) :
  binds_ValidationError scope = false ->
  fn_call func row w = (Raise e, w_f) ->
  fn_call (handle_row_errors scope on_error column_name fallback func) row w
    = (Raise (NameError "ValidationError"), w_f).
Proof. intros Hunbound Hcall. simpl. by rewrite Hcall, Hunbound. Qed.

(** One row, with the manager's [log_error] as callback, where the globals
    bind [ValidationError]. *)
Lemma handle_row_errors_row {V : Type} (scope : Scope)
  (column_name : option string) (fallback : V) (name : string)
  (g : Row -> Result V) (row : Row) (w : World) :
  binds_ValidationError scope = true ->
  (forall e, g row = Raise e -> is_validation e = false) ->
  fn_call (handle_row_errors scope (Some log_error) column_name fallback
             (pure_row_function name g)) row w
    = (Ok (isolated_value g fallback row),
       append_errors (option_list (isolated_record name column_name g row)) w).
Proof.
  intros Hbound Hother. simpl. unfold lift, isolated_value, isolated_record.
  rewrite Hbound.
  destruct (g row) as [v|e] eqn:Hg.
  - by rewrite append_errors_nil.
  - specialize (Hother e eq_refl).
    destruct e; try discriminate Hother;
      (destruct (row !! "row_id") as [rid|]; simpl;
       [reflexivity | by rewrite append_errors_nil]).
Qed.

(** All rows. *)
Lemma handle_row_errors_rows {V : Type} (scope : Scope)
  (column_name : option string) (fallback : V) (name : string)
  (g : Row -> Result V) (rows : list Row) (w : World) :
  binds_ValidationError scope = true ->
  (forall row e, row ∈ rows -> g row = Raise e -> is_validation e = false) ->
  apply_rows
    (fn_call (handle_row_errors scope (Some log_error) column_name fallback
                (pure_row_function name g))) rows w
    = (Ok (map (isolated_value g fallback) rows),
       append_errors (omap (isolated_record name column_name g) rows) w).
Proof.
  intros Hbound. revert w. induction rows as [|row rows IH]; intros w Hother.
  - simpl. unfold ret. by rewrite append_errors_nil.
  - cbn [apply_rows]. unfold bind at 1.
    rewrite handle_row_errors_row by (done || intros e; apply Hother; left).
    unfold bind at 1. rewrite IH by (intros r e Hr; apply Hother; by right).
    unfold ret. rewrite append_errors_app. do 2 f_equal.
    cbn [omap list_omap]. by destruct (isolated_record name column_name g row).
Qed.

(** [df_apply] is defined exactly on the tables with a row and a column,
    and is the loop over the rows there. *)
Lemma df_apply_defined {V : Type} (f : Row -> M V) (df : DataFrame)
  (call : M (list V)) :
  df_apply f df = Some call ->
  call = apply_rows f (df_rows df) /\ nrows df <> 0 /\ columns df <> [].
Proof.
  unfold df_apply. destruct (nrows df) as [|n]; [done|].
  destruct (columns df) as [|c cols]; [done|]. by intros [= <-].
Qed.

(** What the handlers of [handle_row_errors] are written to do, which is
    what they do where the globals bind [ValidationError]: with the
    manager's [log_error] as callback and a function that raises no
    validation error on the rows of the table, applying the decorated
    function over the table does not raise; every row gives the result of
    the function, or the fallback value when the function raises; the
    error ledger gains, in row order, one record for each failing row that
    carries a [row_id]; lineage and log are untouched. *)
Lemma handle_row_errors_isolates_when_bound {V : Type} (scope : Scope)
  (name : string) (g : Row -> Result V) (column_name : option string)
  (fallback : V) (df : DataFrame) (w : World) (call : M (list V)) :
  binds_ValidationError scope = true ->
  (forall row e, row ∈ df_rows df -> g row = Raise e -> is_validation e = false) ->
  df_apply
    (fn_call (handle_row_errors scope (Some log_error) column_name fallback
                (pure_row_function name g))) df = Some call ->
  exists w',
    call w = (Ok (map (isolated_value g fallback) (df_rows df)), w')
    /\ errors (manager w') =
         errors (manager w) ++ omap (isolated_record name column_name g) (df_rows df)
    /\ lineage (manager w') = lineage (manager w)
    /\ logs (manager w') = logs (manager w).
Proof.
  intros Hbound Hother [-> _]%df_apply_defined.
  eexists. split.
  - by apply handle_row_errors_rows.
  - done.
Qed.

Lemma growth_percent_no_validation (row : Row) (e : Exn) :
  growth_percent row = Raise e -> is_validation e = false.
Proof.
  unfold growth_percent. repeat case_match; intros [= <-]; reflexivity.
Qed.

(** The scenario at the end of the module, where the globals bind
    [ValidationError]: rows 1 and 3 are computed, row 2 gets the fallback
    and one record. *)
Example handle_row_errors_isolates_sample :
  (fun call => call sample_world) <$>
    df_apply
      (fn_call (handle_row_errors imported_scope (Some log_error) (Some "growth_rate")
                  VNone (pure_row_function "growth_percent" growth_percent)))
      sample_identified
  = Some (Ok [VInt 10; VNone; VInt 20],
          append_errors
            [mkErrorRecord (VStr "b") "growth_percent (column: growth_rate)"
               "Invalid start_value"]
            sample_world).
Proof. vm_compute. reflexivity. Qed.

(** C1, at the failing input: the identified sample table, whose second
    row (identifier [b]) has [start_value] 0, and the growth function of
    the module's example, which raises [ValueError] on that row and
    returns on the two others, decorated with the manager's [log_error] as
    callback and [None] as fallback.  In the module as it is written,
    applying the decorated function over the table raises
    [NameError] for the name [ValidationError]: the row does not get the
    fallback value and the error ledger gains no record (the world is the
    one before the call).  The claim expects the values 10, [None], 20 and
    one record for [b]. *)
Theorem row_fault_isolation_raises_name_error :
  growth_percent (row_at sample_identified 0) = Ok (VInt 10)
  /\ growth_percent (row_at sample_identified 1)
     = Raise (ValueError "Invalid start_value")
  /\ row_at sample_identified 1 !! "row_id" = Some (VStr "b")
  /\ (fun call => call sample_world) <$>
       df_apply
         (fn_call (handle_row_errors module_scope (Some log_error)
                     (Some "growth_rate") VNone
                     (pure_row_function "growth_percent" growth_percent)))
         sample_identified
     = Some (Raise (NameError "ValidationError"), sample_world).
Proof. repeat split; vm_compute; reflexivity. Qed.

(** Without a callback nothing is recorded, with or without [row_id]. *)
Lemma handle_row_errors_no_callback {V : Type} (scope : Scope)
  (column_name : option string) (fallback : V) (func : PyFunction Row V)
  (row : Row) (w w_f : World) (e : Exn) :
  binds_ValidationError scope = true ->
  fn_call func row w = (Raise e, w_f) ->
  is_validation e = false ->
  fn_call (handle_row_errors scope None column_name fallback func) row w
    = (Ok fallback, w_f).
Proof.
  intros Hbound Hcall Hother. simpl. rewrite Hcall, Hbound.
  destruct e; try discriminate Hother; reflexivity.
Qed.

(** C5, as amended: when the wrapped call raises a non-validation
    exception on a row that has no [row_id] field, the exception does not
    come out of the decorated function.  Where the globals of the module
    bind [ValidationError], the decorated function returns the fallback
    value; the callback is not called, so the world is the one the wrapped
    call left and no record is written.  (Where they do not, as in the
    module as it is written, the first [except] clause raises [NameError]
    instead, and again nothing is recorded.) *)
Theorem missing_identifier_yields_fallback {V : Type} (scope : Scope)
  (on_error : option ErrorCallback) (column_name : option string)
  (fallback : V) (func : PyFunction Row V) (row : Row)
  (w w_f : World) (e : Exn)
  (Hraise : fn_call func row w = (Raise e, w_f))
  (Hother : is_validation e = false)
  (Hnoid : row !! "row_id" = None) :
  fn_call (handle_row_errors scope on_error column_name fallback func) row w
    = (if binds_ValidationError scope then Ok fallback
       else Raise (NameError "ValidationError"),
       w_f).
Proof.
  simpl. rewrite Hraise, Hnoid.
  destruct (binds_ValidationError scope); [|done].
  destruct e; try discriminate Hother; by destruct on_error.
Qed.

Lemma missing_identifier_yields_fallback_witness :
  fn_call (handle_row_errors imported_scope (Some log_error) None VNone refuse_row)
    (row_at sample_input 1) sample_world
    = (Ok VNone, sample_world).
Proof.
  apply (missing_identifier_yields_fallback imported_scope (Some log_error) None
           VNone refuse_row (row_at sample_input 1) sample_world sample_world
           (ValueError "Invalid start_value")).
  - reflexivity.
  - reflexivity.
  - vm_compute. reflexivity.
Defined.

(** The two outcomes at the second row of the sample table, which has no
    [row_id], for a function that raises [ValueError]. *)
Example missing_identifier_sample :
  row_at sample_input 1 !! "row_id" = None
  /\ fn_call refuse_row (row_at sample_input 1) sample_world
     = (Raise (ValueError "Invalid start_value"), sample_world)
  /\ fn_call (handle_row_errors module_scope (Some log_error) None VNone refuse_row)
       (row_at sample_input 1) sample_world
     = (Raise (NameError "ValidationError"), sample_world)
  /\ fn_call (handle_row_errors imported_scope (Some log_error) None VNone refuse_row)
       (row_at sample_input 1) sample_world
     = (Ok VNone, sample_world).
Proof. repeat split; vm_compute; reflexivity. Qed.

(** The sentence of C5 fails at the second row of the sample table (no
    [row_id]) for a function that raises [ValueError("Invalid
    start_value")]: in the module as it is written the caller gets
    [NameError] for the name [ValidationError], not the [ValueError]; in a
    module that imports the class the caller gets the fallback value. *)
Lemma missing_identifier_propagates_counterexample :
  ~ missing_identifier_propagates_as_stated module_scope
  /\ ~ missing_identifier_propagates_as_stated imported_scope.
Proof.
  assert (Hrow : row_at sample_input 1 !! "row_id" = None)
    by (vm_compute; reflexivity).
  split; intros Hclaim;
    specialize (Hclaim (Some log_error) None VNone refuse_row
                  (row_at sample_input 1) sample_world sample_world
                  (ValueError "Invalid start_value") eq_refl eq_refl Hrow);
    simpl in Hclaim; try rewrite Hrow in Hclaim; discriminate Hclaim.
Qed.

(** ** Validation failures *)

Lemma with_context_unbound (key msg : string) (rest acc : StrDict) :
  with_context None ((key, msg) :: rest) acc = Raise (NameError "context").
Proof. reflexivity. Qed.

Lemma with_context_empty (scope : option string) (acc : StrDict) :
  with_context scope [] acc = Ok acc.
Proof. reflexivity. Qed.

Lemma with_context_bound (c : string) (items acc : StrDict) :
  with_context (Some c) items acc =
    Ok (foldl (fun d '(key, msg) => dict_setitem (c +:+ " -> " +:+ key) msg d)
          acc items).
Proof.
  revert acc. induction items as [|[key msg] items IH]; intros acc; simpl; [done|].
  apply IH.
Qed.

(** A validation failure is never replaced by the fallback value, and the
    callback is not called: whatever the globals hold, the decorated call
    raises. *)
Lemma validation_failure_never_fallback {V : Type} (scope : Scope)
  (on_error : option ErrorCallback) (column_name : option string) (fallback : V)
  (func : PyFunction Row V) (row : Row) (w w_f : World) (errs : StrDict) :
  fn_call func row w = (Raise (ValidationError errs), w_f) ->
  raises (fst (fn_call (handle_row_errors scope on_error column_name fallback func)
                 row w)) = true
  /\ snd (fn_call (handle_row_errors scope on_error column_name fallback func) row w)
     = w_f.
Proof.
  intros Hcall. simpl. rewrite Hcall.
  destruct (binds_ValidationError scope); [|done].
  by destruct (with_context (binds_context scope) errs []).
Qed.

(** Were both names bound, [ValidationError] to the class and [context]
    to a text, the re-raised failure would carry the mapping with every
    key prefixed by that text. *)
Lemma validation_failure_with_bound_context {V : Type} (c : string)
  (on_error : option ErrorCallback) (column_name : option string) (fallback : V)
  (func : PyFunction Row V) (row : Row) (w w_f : World) (errs : StrDict) :
  fn_call func row w = (Raise (ValidationError errs), w_f) ->
  fn_call (handle_row_errors (mkScope true (Some c)) on_error column_name fallback
             func) row w
    = (Raise (ValidationError
                (foldl (fun d '(key, msg) => dict_setitem (c +:+ " -> " +:+ key) msg d)
                   [] errs)),
       w_f).
Proof. intros Hcall. simpl. by rewrite Hcall, with_context_bound. Qed.

(** With the class imported [context] is still unbound: a validation
    failure with at least one entry comes out as the [NameError] of that
    name. *)
Lemma validation_failure_unbound_context {V : Type}
  (on_error : option ErrorCallback) (column_name : option string) (fallback : V)
  (func : PyFunction Row V) (row : Row) (w w_f : World)
  (key msg : string) (rest : StrDict) :
  fn_call func row w = (Raise (ValidationError ((key, msg) :: rest)), w_f) ->
  fn_call (handle_row_errors imported_scope on_error column_name fallback func) row w
    = (Raise (NameError "context"), w_f).
Proof. intros Hcall. simpl. by rewrite Hcall. Qed.

(** C4, at the failing input: the wrapped function raises
    [ValidationError({"age": "Missing key: age"})].  In the module as it
    is written the decorated call raises [NameError] for the name
    [ValidationError], which the first [except] clause reads; in a module
    that imports the class it raises [NameError] for the name [context],
    which the comprehension reads.  In neither does a validation failure
    with an augmented mapping come out. *)
Theorem validation_failure_raises_name_error :
  fst (fn_call (handle_row_errors module_scope (Some log_error) None VNone check_row)
         (row_at sample_identified 0) sample_world)
    = Raise (NameError "ValidationError")
  /\ fst (fn_call (handle_row_errors imported_scope (Some log_error) None VNone
                     check_row)
            (row_at sample_identified 0) sample_world)
     = Raise (NameError "context").
Proof. split; reflexivity. Qed.

(** * Further properties of the code *)

(** ** The validator *)

Lemma dict_setitem_nonempty (k v : string) (d : StrDict) :
  dict_setitem k v d <> [].
Proof. destruct d as [|[k' v'] d]; simpl; [done|]. by case_decide. Qed.

Lemma dict_setitem_keys (k v k' : string) (d : StrDict) :
  k' ∈ (fst <$> dict_setitem k v d) <-> k' = k \/ k' ∈ (fst <$> d).
Proof.
  induction d as [|[k0 v0] d IH]; simpl.
  - rewrite list_elem_of_singleton, elem_of_nil. tauto.
  - case_decide as Hk; simpl.
    + subst k0. rewrite !elem_of_cons. tauto.
    + rewrite !elem_of_cons, IH. tauto.
Qed.

Lemma dict_get_setitem_eq (k v : string) (d : StrDict) :
  dict_get k (dict_setitem k v d) = Some v.
Proof.
  induction d as [|[k0 v0] d IH]; simpl.
  - by rewrite decide_True.
  - case_decide as Hk; simpl.
    + by rewrite decide_True.
    + by rewrite decide_False.
Qed.

Lemma dict_get_setitem_ne (k k' v : string) (d : StrDict) :
  k' <> k -> dict_get k' (dict_setitem k v d) = dict_get k' d.
Proof.
  intros Hne. induction d as [|[k0 v0] d IH]; simpl.
  - by rewrite decide_False.
  - destruct (decide (k0 = k)) as [->|Hk]; simpl.
    + by rewrite !decide_False.
    + by rewrite IH.
Qed.

Lemma check_schema_keys (data : Row) (schema : list (string * PyType))
  (errors : StrDict) (k : string) :
  k ∈ (fst <$> check_schema data schema errors) <->
  k ∈ (fst <$> errors) \/ schema_fails data schema k.
Proof.
  revert errors. induction schema as [|[key t] schema IH]; intros errors; simpl.
  - split; [by left|]. intros [?|(t & Hin & _)]; [done|].
    by apply elem_of_nil in Hin.
  - assert (Hcons : schema_fails data ((key, t) :: schema) k <->
                    (k = key /\ match data !! key with
                                | None => True
                                | Some v => isinstance v t = false
                                end)
                    \/ schema_fails data schema k).
    { unfold schema_fails. split.
      - intros (t' & [[= -> ->]|Hin]%elem_of_cons & Hfail); [by left|right; eauto].
      - intros [[-> Hfail]|(t' & Hin & Hfail)].
        + exists t. split; [left|done].
        + exists t'. split; [by right|done]. }
    rewrite Hcons. clear Hcons.
    destruct (data !! key) as [v|] eqn:Hdata.
    + destruct (isinstance v t) eqn:Hinst.
      * rewrite IH. split; [tauto|]. intros [?|[[_ ?]|?]]; [tauto|done|tauto].
      * rewrite IH, dict_setitem_keys. tauto.
    + rewrite IH, dict_setitem_keys. tauto.
Qed.

Lemma try_rule_outcome (eval : Evaluator) (data : Row) (rule : Rule)
  (errors : StrDict) :
  (try_rule eval data rule errors = Ok errors /\ ~ rule_fails eval data rule)
  \/ (rule_fails eval data rule
      /\ match rule !! "description" with
         | None => exists e, try_rule eval data rule errors = Raise e
         | Some d =>
             (exists e, try_rule eval data rule errors = Raise e)
             \/ (exists msg, try_rule eval data rule errors
                             = Ok (dict_setitem d msg errors))
         end).
Proof.
  unfold try_rule, rule_fails.
  destruct (rule !! "condition") as [c|].
  - destruct (eval c data) as [[|]|e].
    + left. split; [done|]. by intros [].
    + right. split; [done|]. destruct (rule !! "description"); eauto.
    + right. split; [done|]. destruct (rule !! "description"); eauto.
  - right. split; [done|]. destruct (rule !! "description"); eauto.
Qed.

Lemma check_rules_keys (eval : Evaluator) (data : Row) (rules : list Rule)
  (errors : StrDict) :
  Forall (fun r => rule_fails eval data r -> is_Some (r !! "description")) rules ->
  exists errors',
    check_rules eval data rules errors = Ok errors'
    /\ forall k,
         k ∈ (fst <$> errors') <->
         k ∈ (fst <$> errors)
         \/ exists r, r ∈ rules /\ r !! "description" = Some k
                      /\ rule_fails eval data r.
Proof.
  intros Hdesc. revert errors.
  induction Hdesc as [|rule rules Hrule _ IH]; intros errors; simpl.
  - exists errors. split; [done|]. intros k. split; [by left|].
    intros [?|(r & Hin & _)]; [done|]. by apply elem_of_nil in Hin.
  - assert (Hstep : forall d msg,
              rule !! "description" = Some d -> rule_fails eval data rule ->
              exists errors',
                check_rules eval data rules (dict_setitem d msg errors) = Ok errors'
                /\ forall k,
                     k ∈ (fst <$> errors') <->
                     k ∈ (fst <$> errors)
                     \/ exists r, r ∈ rule :: rules /\ r !! "description" = Some k
                                  /\ rule_fails eval data r).
    { intros d msg Hd Hfails.
      destruct (IH (dict_setitem d msg errors)) as (errors' & Hrun & Hkeys).
      exists errors'. split; [done|]. intros k.
      rewrite Hkeys, dict_setitem_keys. split.
      - intros [[->|?]|(r & Hin & Hr)]; [right|by left|right].
        + exists rule. split; [left|done].
        + exists r. split; [by right|done].
      - intros [?|(r & [->|Hin]%elem_of_cons & Hr & Hf)]; [tauto| |].
        + left. left. congruence.
        + right. eauto. }
    destruct (try_rule_outcome eval data rule errors) as [[Hok Hpass]|[Hfails Hcase]].
    + rewrite Hok. destruct (IH errors) as (errors' & Hrun & Hkeys).
      exists errors'. split; [done|]. intros k. rewrite Hkeys. split.
      * intros [?|(r & Hin & Hr)]; [by left|right].
        exists r. split; [by right|done].
      * intros [?|(r & [->|Hin]%elem_of_cons & Hr & Hf)]; [by left|done|].
        right. eauto.
    + destruct (Hrule Hfails) as [d Hd]. rewrite Hd in Hcase.
      destruct Hcase as [[e He]|[msg Hmsg]].
      * rewrite He, Hd. by apply Hstep.
      * rewrite Hmsg. by apply Hstep.
Qed.

Lemma check_schema_empty (data : Row) (schema : list (string * PyType))
  (errors : StrDict) :
  check_schema data schema errors = [] <->
  errors = []
  /\ forall key t, (key, t) ∈ schema ->
       exists v, data !! key = Some v /\ isinstance v t = true.
Proof.
  revert errors. induction schema as [|[key t] schema IH]; intros errors; simpl.
  - split; [|tauto]. intros ->. split; [done|].
    intros key t Hin. by apply elem_of_nil in Hin.
  - destruct (data !! key) as [v|] eqn:Hdata.
    + destruct (isinstance v t) eqn:Hinst.
      * rewrite IH. split.
        -- intros [-> Hall]. split; [done|].
           intros key' t' [[= -> ->]|Hin]%elem_of_cons; eauto.
        -- intros [-> Hall]. split; [done|]. intros key' t' Hin.
           apply Hall. by right.
      * rewrite IH. split.
        -- intros [Habs _]. by apply dict_setitem_nonempty in Habs.
        -- intros [_ Hall]. destruct (Hall key t) as (v' & Hv' & Hi); [left|].
           congruence.
    + rewrite IH. split.
      * intros [Habs _]. by apply dict_setitem_nonempty in Habs.
      * intros [_ Hall]. destruct (Hall key t) as (v' & Hv' & _); [left|].
        congruence.
Qed.

Lemma check_rules_empty (eval : Evaluator) (data : Row) (rules : list Rule)
  (errors : StrDict) :
  check_rules eval data rules errors = Ok [] <->
  errors = []
  /\ forall rule, rule ∈ rules ->
       exists c, rule !! "condition" = Some c /\ eval c data = Ok true.
Proof.
  revert errors. induction rules as [|rule rules IH]; intros errors; simpl.
  - split.
    + intros [= ->]. split; [done|]. intros r Hin. by apply elem_of_nil in Hin.
    + by intros [-> _].
  - assert (Hbad : forall d msg,
              ~ (check_rules eval data rules (dict_setitem d msg errors) = Ok [])).
    { intros d msg [Habs _]%IH. by apply dict_setitem_nonempty in Habs. }
    unfold try_rule.
    destruct (rule !! "condition") as [c|] eqn:Hc.
    + destruct (eval c data) as [[|]|e] eqn:He.
      * rewrite IH. split.
        -- intros [-> Hall]. split; [done|].
           intros r [->|Hin]%elem_of_cons; eauto.
        -- intros [-> Hall]. split; [done|]. intros r Hin. apply Hall. by right.
      * split.
        -- destruct (rule !! "description"); [by intros ?%Hbad|done].
        -- intros [_ Hall]. destruct (Hall rule) as (c' & Hc' & He'); [left|].
           congruence.
      * split.
        -- destruct (rule !! "description"); [by intros ?%Hbad|done].
        -- intros [_ Hall]. destruct (Hall rule) as (c' & Hc' & He'); [left|].
           congruence.
    + split.
      * destruct (rule !! "description"); [by intros ?%Hbad|done].
      * intros [_ Hall]. destruct (Hall rule) as (c' & Hc' & _); [left|].
        congruence.
Qed.

(** X1: [validator] returns [None] exactly when the data has every key of
    the schema with a value of the expected class and every rule has a
    condition that evaluates to a true value; the descriptions of the rules
    are not looked at on that path. *)
Theorem validator_passes_iff (eval : Evaluator) (data : Row)
  (schema : list (string * PyType)) (rules : list Rule) :
  validator eval data schema rules = Ok tt <->
  (forall key t, (key, t) ∈ schema ->
     exists v, data !! key = Some v /\ isinstance v t = true)
  /\ (forall rule, rule ∈ rules ->
        exists c, rule !! "condition" = Some c /\ eval c data = Ok true).
Proof.
  unfold validator. split.
  - destruct (check_rules eval data rules (check_schema data schema []))
      as [[|entry errs]|e] eqn:Hrules; try discriminate.
    intros _. apply check_rules_empty in Hrules as [Hschema Hrules].
    apply check_schema_empty in Hschema as [_ Hschema]. done.
  - intros [Hschema Hrules].
    assert (Hrun : check_rules eval data rules (check_schema data schema []) = Ok []).
    { apply check_rules_empty. split; [|done]. by apply check_schema_empty. }
    by rewrite Hrun.
Qed.

(** X2: when every rule that fails has a description, [validator] raises
    nothing but a [ValidationError]: rule conditions that are absent or whose
    evaluation raises are recorded, not propagated.  The mapping it raises is
    never empty, and its keys are exactly the schema keys the data fails
    and the descriptions of the rules that fail: all failures are collected,
    not only the first. *)
Theorem validator_reports_every_failure (eval : Evaluator) (data : Row)
  (schema : list (string * PyType)) (rules : list Rule)
  (Hdesc : Forall (fun r => rule_fails eval data r -> is_Some (r !! "description"))
             rules) :
  validator eval data schema rules = Ok tt
  \/ exists errs,
       validator eval data schema rules = Raise (ValidationError errs)
       /\ errs <> []
       /\ forall k,
            k ∈ (fst <$> errs) <->
            schema_fails data schema k
            \/ exists r, r ∈ rules /\ r !! "description" = Some k
                         /\ rule_fails eval data r.
Proof.
  destruct (check_rules_keys eval data rules (check_schema data schema []) Hdesc)
    as (errs & Hrun & Hkeys).
  unfold validator. rewrite Hrun.
  destruct errs as [|entry errs]; [by left|right].
  eexists. split; [done|]. split; [done|].
  intros k. rewrite Hkeys, check_schema_keys. simpl.
  rewrite elem_of_nil. tauto.
Qed.

Lemma sample_rules_described (data : Row) :
  Forall (fun r => rule_fails sample_eval data r -> is_Some (r !! "description"))
    sample_rules.
Proof. repeat constructor; intros _; vm_compute; eauto. Qed.

Lemma validator_reports_every_failure_witness :
  validator sample_eval sample_invalid_data sample_schema sample_rules = Ok tt
  \/ exists errs,
       validator sample_eval sample_invalid_data sample_schema sample_rules
         = Raise (ValidationError errs)
       /\ errs <> []
       /\ forall k,
            k ∈ (fst <$> errs) <->
            schema_fails sample_invalid_data sample_schema k
            \/ exists r, r ∈ sample_rules /\ r !! "description" = Some k
                         /\ rule_fails sample_eval sample_invalid_data r.
Proof.
  apply (validator_reports_every_failure sample_eval sample_invalid_data
           sample_schema sample_rules).
  apply sample_rules_described.
Defined.

(** The tests of the validator: valid data pass; data without a name and
    with a negative age give three entries. *)
Example validator_samples :
  validator sample_eval sample_valid_data sample_schema sample_rules = Ok tt
  /\ validator sample_eval sample_invalid_data sample_schema sample_rules
     = Raise (ValidationError
                [("name", "Missing key: name");
                 ("Age must be positive", "Validation failed: data['age'] > 0");
                 ("Name must be at least 3 characters",
                  "Rule evaluation error: 'name'")]).
Proof. split; vm_compute; reflexivity. Qed.

Lemma check_schema_get (data : Row) (schema : list (string * PyType))
  (errors : StrDict) (key : string) (t : PyType) :
  NoDup (fst <$> schema) ->
  (key, t) ∈ schema ->
  match data !! key with
  | None => True
  | Some v => isinstance v t = false
  end ->
  dict_get key (check_schema data schema errors)
    = Some (schema_message data key t).
Proof.
  intros Hnd Hin Hfail. revert errors.
  induction schema as [|[k0 t0] schema IH]; intros errors.
  { by apply elem_of_nil in Hin. }
  simpl in Hnd. apply NoDup_cons in Hnd as [Hk0 Hnd]. simpl.
  assert (Hrest : forall errs,
            key = k0 -> dict_get key (check_schema data schema errs) = dict_get key errs).
  { intros errs ->. clear IH Hin.
    revert errs. induction schema as [|[k1 t1] schema IHs]; intros errs; [done|].
    simpl in *. apply not_elem_of_cons in Hk0 as [Hne Hk0].
    apply NoDup_cons in Hnd as [_ Hnd].
    destruct (data !! k1) as [v1|].
    - destruct (isinstance v1 t1); rewrite IHs by done; [done|].
      by rewrite dict_get_setitem_ne.
    - rewrite IHs by done. by rewrite dict_get_setitem_ne. }
  apply elem_of_cons in Hin as [[= -> ->]|Hin].
  - unfold schema_message. destruct (data !! k0) as [v|] eqn:Hdata.
    + rewrite Hfail. rewrite Hrest by done. apply dict_get_setitem_eq.
    + rewrite Hrest by done. apply dict_get_setitem_eq.
  - destruct (data !! k0) as [v0|]; [destruct (isinstance v0 t0)|]; by apply IH.
Qed.

Lemma check_rules_get (eval : Evaluator) (data : Row) (rules : list Rule)
  (errors : StrDict) (k : string) :
  Forall (fun r => rule_fails eval data r -> is_Some (r !! "description")) rules ->
  (forall r, r ∈ rules -> rule_fails eval data r -> r !! "description" <> Some k) ->
  exists errors',
    check_rules eval data rules errors = Ok errors'
    /\ dict_get k errors' = dict_get k errors.
Proof.
  intros Hdesc. revert errors.
  induction Hdesc as [|rule rules Hrule _ IH]; intros errors Hfree; simpl.
  - by exists errors.
  - assert (Hfree' : forall r, r ∈ rules -> rule_fails eval data r ->
                       r !! "description" <> Some k).
    { intros r Hin. apply Hfree. by right. }
    assert (Hstep : forall d msg,
              rule !! "description" = Some d -> rule_fails eval data rule ->
              exists errors',
                check_rules eval data rules (dict_setitem d msg errors) = Ok errors'
                /\ dict_get k errors' = dict_get k errors).
    { intros d msg Hd Hfails.
      destruct (IH (dict_setitem d msg errors) Hfree') as (errors' & Hrun & Hget).
      exists errors'. split; [done|]. rewrite Hget.
      apply dict_get_setitem_ne. intros ->.
      apply (Hfree rule); [left|done|done]. }
    destruct (try_rule_outcome eval data rule errors) as [[Hok Hpass]|[Hfails Hcase]].
    + rewrite Hok. by apply IH.
    + destruct (Hrule Hfails) as [d Hd]. rewrite Hd in Hcase.
      destruct Hcase as [[e He]|[msg Hmsg]].
      * rewrite He, Hd. by apply Hstep.
      * rewrite Hmsg. by apply Hstep.
Qed.

(** X3: for a schema key the data lacks, or holds with a value of another
    class, the mapping [validator] raises has under that key the text
    "Missing key: <key>", respectively "Expected <class>, got <class>":
    provided no failing rule uses the key as its description, which would
    overwrite the entry. *)
Theorem validator_schema_message (eval : Evaluator) (data : Row)
  (schema : list (string * PyType)) (rules : list Rule) (key : string) (t : PyType)
  (Hdesc : Forall (fun r => rule_fails eval data r -> is_Some (r !! "description"))
             rules)
  (Hkeys : NoDup (fst <$> schema))
  (Hin : (key, t) ∈ schema)
  (Hfail : match data !! key with
           | None => True
           | Some v => isinstance v t = false
           end)
  (Hfree : forall r, r ∈ rules -> rule_fails eval data r ->
             r !! "description" <> Some key) :
  exists errs,
    validator eval data schema rules = Raise (ValidationError errs)
    /\ dict_get key errs = Some (schema_message data key t).
Proof.
  destruct (check_rules_get eval data rules (check_schema data schema []) key
              Hdesc Hfree) as (errs & Hrun & Hget).
  rewrite (check_schema_get data schema [] key t Hkeys Hin Hfail) in Hget.
  unfold validator. rewrite Hrun.
  destruct errs as [|entry errs]; [discriminate Hget|]. eauto.
Qed.

Lemma validator_schema_message_witness :
  exists errs,
    validator sample_eval sample_invalid_data sample_schema sample_rules
      = Raise (ValidationError errs)
    /\ dict_get "name" errs = Some (schema_message sample_invalid_data "name" TStr).
Proof.
  apply (validator_schema_message sample_eval sample_invalid_data sample_schema
           sample_rules "name" TStr).
  - apply sample_rules_described.
  - apply (bool_decide_unpack _). vm_compute. exact I.
  - apply list_elem_of_In. simpl. auto.
  - vm_compute. exact I.
  - intros r Hr _. apply list_elem_of_In in Hr. simpl in Hr.
    destruct Hr as [<-|[<-|[<-|[]]]]; vm_compute; discriminate.
Defined.

Lemma check_rules_app (eval : Evaluator) (data : Row) (pre post : list Rule)
  (errors : StrDict) :
  check_rules eval data (pre ++ post) errors =
    match check_rules eval data pre errors with
    | Ok errors' => check_rules eval data post errors'
    | Raise e => Raise e
    end.
Proof.
  revert errors. induction pre as [|rule pre IH]; intros errors; simpl; [done|].
  destruct (try_rule eval data rule errors) as [errors'|e]; [apply IH|].
  destruct (rule !! "description"); [apply IH|done].
Qed.

(** X4: a rule that fails and has no description makes [validator] raise
    [KeyError] for that key instead of a [ValidationError]: the handler that
    records the failure looks the description up again.  The rules after it
    are not evaluated. *)
Theorem validator_rule_without_description (eval : Evaluator) (data : Row)
  (schema : list (string * PyType)) (pre post : list Rule) (rule : Rule)
  (Hpre : Forall (fun r => rule_fails eval data r -> is_Some (r !! "description"))
            pre)
  (Hnone : rule !! "description" = None)
  (Hfails : rule_fails eval data rule) :
  validator eval data schema (pre ++ rule :: post) = Raise (KeyError "description").
Proof.
  destruct (check_rules_keys eval data pre (check_schema data schema []) Hpre)
    as (errs & Hrun & _).
  unfold validator. rewrite check_rules_app, Hrun. simpl.
  destruct (try_rule_outcome eval data rule errs) as [[_ Hpass]|[_ Hcase]]; [done|].
  rewrite Hnone in Hcase. destruct Hcase as [e He]. by rewrite He, Hnone.
Qed.

Lemma validator_rule_without_description_witness :
  validator sample_eval sample_invalid_data sample_schema
    ([] ++ {[ "condition" := "data['age'] > 0" ]} :: sample_rules)
    = Raise (KeyError "description").
Proof.
  apply (validator_rule_without_description sample_eval sample_invalid_data
           sample_schema [] sample_rules {[ "condition" := "data['age'] > 0" ]}).
  - constructor.
  - vm_compute. reflexivity.
  - vm_compute. discriminate.
Defined.

(** ** Row filtering *)

Lemma select_elem_of {A : Type} (mask : list bool) (xs : list A) (x : A) :
  x ∈ select mask xs -> x ∈ xs.
Proof.
  revert xs. induction mask as [|b mask IH]; intros [|y xs]; simpl;
    try (by intros ?%elem_of_nil).
  destruct b.
  - intros [->|Hin]%elem_of_cons; [left|right; by apply IH].
  - intros Hin. right. by apply IH.
Qed.

Lemma select_length {A : Type} (mask : list bool) (xs : list A) :
  length mask = length xs ->
  length (select mask xs) = length (filter (fun b => b = true) mask).
Proof.
  revert xs. induction mask as [|b mask IH]; intros [|y xs]; simpl; try done.
  intros [= Hlen]. rewrite filter_cons. destruct b; simpl.
  - by rewrite IH.
  - by apply IH.
Qed.

Lemma column_lookup_select (c : string) (mask : list bool)
  (cols : list (string * list Value)) :
  column_lookup c (map (fun '(c0, vs) => (c0, select mask vs)) cols)
    = select mask <$> column_lookup c cols.
Proof.
  induction cols as [|[c0 vs] cols IH]; simpl; [done|]. by case_decide.
Qed.

Lemma not_isin_length (series values : list Value) :
  length (not_isin series values) = length series.
Proof. unfold not_isin. by rewrite length_map. Qed.

Lemma not_isin_none (series values : list Value) :
  length (filter (fun b => b = true) (not_isin series values)) = 0 <->
  forall v, v ∈ series -> v ∈ values.
Proof.
  unfold not_isin. induction series as [|v series IH]; simpl.
  - split; [|done]. intros _ v Hin. by apply elem_of_nil in Hin.
  - rewrite filter_cons. destruct (bool_decide (v ∈ values)) eqn:Hv; simpl.
    + apply bool_decide_eq_true in Hv. rewrite IH. split.
      * intros Hall v' [->|Hin]%elem_of_cons; auto.
      * intros Hall v' Hin. apply Hall. by right.
    + apply bool_decide_eq_false in Hv. split; [done|].
      intros Hall. destruct Hv. apply Hall. left.
Qed.

Lemma manage_metadata_returns (func : PyFunction DataFrame DataFrame)
  (df result : DataFrame) (w w' : World) :
  fn_call (manage_metadata func) df w = (Ok result, w') ->
  exists w_g, fn_call func df (snd (time_time w)) = (Ok result, w_g).
Proof.
  simpl. unfold bind at 1. simpl. unfold try_except, bind at 1.
  destruct (fn_call func df _) as [[r|e] w_g] eqn:Hcall; [|done].
  unfold bind at 1.
  destruct (update_lineage r (fn_name func) None w_g) as [[[]|e] w1]; [|done].
  unfold bind, log_transformation, time_time, modify_manager, ret. simpl.
  intros [= <- _]. eauto.
Qed.

(** What the body of [filter_with_details] does once the condition has
    given its mask. *)
Lemma filter_with_details_body_spec (filter_condition : DataFrame -> M (list bool))
  (transformation_name : string) (df : DataFrame) (w w_c : World)
  (mask : list bool) (ids : list Value) :
  filter_condition df w = (Ok mask, w_c) ->
  nrows df <= length mask ->
  df_getitem "row_id" df = Ok ids ->
  length ids = nrows df ->
  filter_with_details_body filter_condition transformation_name df w =
    if bool_decide (Forall (fun v => v ∈ select (take (nrows df) mask) ids) ids)
    then
      (Ok (mkDataFrame (length (filter (fun b => b = true) (take (nrows df) mask)))
             (map (fun '(c, vs) => (c, select (take (nrows df) mask) vs))
                (columns df))),
       w_c)
    else
      (Raise (PyException "AttributeError"
                "'MetadataManager' object has no attribute 'log_removed_rows'"),
       w_c).
Proof.
  intros Hcond Hmask Hids Hwf.
  unfold filter_with_details_body. unfold bind at 1. rewrite Hcond.
  unfold bind at 1, lift at 1, df_getitem_mask at 1.
  rewrite decide_True by done.
  unfold bind at 1, lift at 1.
  assert (Hcopy : df_copy df = df) by by destruct df.
  rewrite Hcopy, Hids.
  unfold bind at 1, lift at 1, df_getitem at 1. simpl.
  rewrite column_lookup_select.
  assert (Hcol : column_lookup "row_id" (columns df) = Some ids).
  { unfold df_getitem in Hids. destruct (column_lookup "row_id" (columns df));
      congruence. }
  rewrite Hcol. simpl.
  set (kept := select (take (nrows df) mask) ids).
  unfold bind at 1, lift at 1, df_getitem_mask.
  rewrite decide_True by (rewrite not_isin_length; lia).
  rewrite firstn_all2 by (rewrite not_isin_length; lia).
  unfold df_empty. simpl.
  assert (Hcols : columns df <> []).
  { intros Hnil. by rewrite Hnil in Hcol. }
  assert (Hmap : map (fun '(c, vs) => (c, select (not_isin ids kept) vs)) (columns df)
                 <> []).
  { destruct (columns df); [done|]. simpl. by destruct p. }
  destruct (decide (Forall (fun v => v ∈ kept) ids)) as [Hall|Hsome].
  - rewrite (bool_decide_eq_true_2 (Forall (fun v => v ∈ kept) ids)) by done.
    rewrite bool_decide_eq_true_2; [done|]. left.
    apply not_isin_none. by apply Forall_forall.
  - rewrite (bool_decide_eq_false_2 (Forall (fun v => v ∈ kept) ids)) by done.
    rewrite bool_decide_eq_false_2; [done|].
    intros [Hzero|Hnil]; [|done]. apply Hsome.
    apply Forall_forall. by apply not_isin_none.
Qed.

(** X5: the decorated [filter_with_details] cannot remove a row: when the
    mask drops an identifier (no kept row carries it), the body reaches
    [metadata_manager.log_removed_rows], which the manager does not have,
    so the call raises [AttributeError]; the decorator records it as one
    global error under the name filter_with_details, and writes no log
    record and no lineage. *)
Theorem filter_with_details_removal_raises
  (filter_condition : DataFrame -> M (list bool)) (transformation_name : string)
  (df : DataFrame) (w w_c : World) (mask : list bool) (ids : list Value)
  (rid : Value)
  (Hcond : filter_condition df (snd (time_time w)) = (Ok mask, w_c))
  (Hmask : nrows df <= length mask)
  (Hids : df_getitem "row_id" df = Ok ids)
  (Hwf : length ids = nrows df)
  (Hin : rid ∈ ids)
  (Hgone : rid ∉ select (take (nrows df) mask) ids) :
  exists w',
    fn_call (filter_with_details filter_condition transformation_name) df w
      = (Raise (PyException "AttributeError"
                  "'MetadataManager' object has no attribute 'log_removed_rows'"),
         w')
    /\ errors (manager w') =
         errors (manager w_c)
           ++ [mkErrorRecord (VStr "global") "filter_with_details"
                 "'MetadataManager' object has no attribute 'log_removed_rows'"]
    /\ logs (manager w') = logs (manager w_c)
    /\ lineage (manager w') = lineage (manager w_c).
Proof.
  eexists. split.
  - unfold filter_with_details. apply manage_metadata_raise. simpl.
    rewrite (filter_with_details_body_spec _ _ _ _ w_c mask ids) by done.
    rewrite bool_decide_eq_false_2; [done|].
    intros Hall. apply Hgone. by apply (proj1 (Forall_forall _ _) Hall).
  - done.
Qed.

Lemma filter_with_details_removal_raises_witness :
  exists w',
    fn_call (filter_with_details positive_start "positive_start") sample_identified
      sample_world
      = (Raise (PyException "AttributeError"
                  "'MetadataManager' object has no attribute 'log_removed_rows'"),
         w')
    /\ errors (manager w') =
         errors (manager (snd (time_time sample_world)))
           ++ [mkErrorRecord (VStr "global") "filter_with_details"
                 "'MetadataManager' object has no attribute 'log_removed_rows'"]
    /\ logs (manager w') = logs (manager (snd (time_time sample_world)))
    /\ lineage (manager w') = lineage (manager (snd (time_time sample_world))).
Proof.
  apply (filter_with_details_removal_raises positive_start "positive_start"
           sample_identified sample_world (snd (time_time sample_world))
           [true; false; true] [VStr "a"; VStr "b"; VStr "c"] (VStr "b")).
  - reflexivity.
  - simpl. lia.
  - reflexivity.
  - reflexivity.
  - apply list_elem_of_In. simpl. auto.
  - intros Hin%list_elem_of_In. simpl in Hin.
    destruct Hin as [[=]|[[=]|[]]].
Defined.

(** X6: whenever the decorated [filter_with_details] returns a table, every
    identifier of the input is still in it; when the identifiers of the
    input are pairwise distinct the result has as many rows as the input.
    The input is a table whose [row_id] column has one cell per row. *)
Theorem filter_with_details_never_removes
  (filter_condition : DataFrame -> M (list bool)) (transformation_name : string)
  (df result : DataFrame) (w w' : World)
  (Hwf : length (row_ids df) = nrows df)
  (Hrun : fn_call (filter_with_details filter_condition transformation_name) df w
          = (Ok result, w')) :
  (forall rid, rid ∈ row_ids df -> rid ∈ row_ids result)
  /\ (NoDup (row_ids df) -> nrows result = nrows df).
Proof.
  apply manage_metadata_returns in Hrun as [w_g Hbody].
  remember (snd (time_time w)) as w1 eqn:Hw1. clear Hw1. simpl in Hbody.
  destruct (filter_condition df w1) as [[mask|e] w_c] eqn:Hcond;
    [|by unfold filter_with_details_body, bind in Hbody; rewrite Hcond in Hbody].
  destruct (decide (nrows df <= length mask)) as [Hmask|Hmask];
    [|by unfold filter_with_details_body, bind, lift, df_getitem_mask in Hbody;
         rewrite Hcond, decide_False in Hbody].
  destruct (df_getitem "row_id" df) as [ids|e] eqn:Hids.
  - pose proof (df_getitem_row_ids df ids Hids) as Hrow. rewrite Hrow in *.
    rewrite (filter_with_details_body_spec _ _ _ _ w_c mask ids) in Hbody by done.
    destruct (bool_decide (Forall _ ids)) eqn:Hall; [|done].
    apply bool_decide_eq_true in Hall.
    injection Hbody as <- _.
    assert (Hkept : row_ids
                      (mkDataFrame
                         (length (filter (fun b => b = true) (take (nrows df) mask)))
                         (map (fun '(c, vs) => (c, select (take (nrows df) mask) vs))
                            (columns df)))
                    = select (take (nrows df) mask) ids).
    { unfold row_ids. simpl. rewrite column_lookup_select.
      unfold df_getitem in Hids.
      destruct (column_lookup "row_id" (columns df)); [|done].
      by injection Hids as ->. }
    rewrite Hkept. split.
    + by apply Forall_forall.
    + intros Hnd. simpl.
      assert (Hlen : length (take (nrows df) mask) = length ids).
      { rewrite length_take. lia. }
      rewrite <- (select_length _ ids) by done.
      apply Nat.le_antisymm.
      * rewrite select_length by done.
        etrans; [apply length_filter|]. rewrite length_take. lia.
      * assert (Hle : length ids <= length (select (take (nrows df) mask) ids)).
        { apply submseteq_length, NoDup_submseteq; [done|].
          by apply Forall_forall. }
        lia.
  - exfalso. unfold filter_with_details_body, bind, lift, df_getitem_mask in Hbody.
    assert (Hcopy : df_copy df = df) by by destruct df.
    rewrite Hcond, decide_True, Hcopy, Hids in Hbody by done. done.
Qed.

Lemma filter_with_details_never_removes_witness :
  (forall rid, rid ∈ row_ids sample_identified -> rid ∈ row_ids sample_identified)
  /\ (NoDup (row_ids sample_identified) ->
      nrows sample_identified = nrows sample_identified).
Proof.
  apply (filter_with_details_never_removes keep_all "keep_all" sample_identified
           sample_identified sample_world
           (snd (fn_call (filter_with_details keep_all "keep_all") sample_identified
                   sample_world))).
  - reflexivity.
  - reflexivity.
Defined.

(** ** The lineage ledger, again *)

(** X7: [initialize] on a table with a [row_id] column starts every
    identifier of the table afresh, discarding whatever lineage the ledger
    held for it, and touches nothing else: the lineage of every other
    identifier, the error ledger and the transformation log are as before,
    and the ledger keeps all its identifiers. *)
Theorem initialize_resets_table_entries (df : DataFrame) (w : World)
  (ids : list Value)
  (Hids : df_getitem "row_id" df = Ok ids) :
  exists w',
    initialize df w = (Ok tt, w')
    /\ (forall rid, rid ∈ ids -> get_lineage rid w' = (Ok [], w'))
    /\ (forall rid, rid ∉ ids ->
          fst (get_lineage rid w') = fst (get_lineage rid w))
    /\ dom (lineage (manager w')) = dom (lineage (manager w)) ∪ list_to_set ids
    /\ errors (manager w') = errors (manager w)
    /\ logs (manager w') = logs (manager w).
Proof.
  eexists. split.
  - unfold initialize, bind, lift. rewrite Hids. reflexivity.
  - unfold get_lineage, dd_get, with_lineage. simpl. repeat split.
    + intros rid Hin. by rewrite insert_loop_lookup_in.
    + intros rid Hnot. by rewrite insert_loop_lookup_notin.
    + clear Hids. generalize (lineage (manager w)).
      induction ids as [|a ids IH] using rev_ind; intros lin.
      * simpl. by rewrite union_empty_r_L.
      * rewrite foldl_app. simpl. rewrite dom_insert_L, IH, list_to_set_app_L.
        simpl. rewrite union_empty_r_L.
        by rewrite (comm_L (∪) {[a]}), (assoc_L (∪)).
Qed.

Lemma initialize_resets_table_entries_witness :
  exists w',
    initialize filtered_table cleaned_world = (Ok tt, w')
    /\ (forall rid, rid ∈ [VStr "b"] -> get_lineage rid w' = (Ok [], w'))
    /\ (forall rid, rid ∉ [VStr "b"] ->
          fst (get_lineage rid w') = fst (get_lineage rid cleaned_world))
    /\ dom (lineage (manager w'))
       = dom (lineage (manager cleaned_world)) ∪ list_to_set [VStr "b"]
    /\ errors (manager w') = errors (manager cleaned_world)
    /\ logs (manager w') = logs (manager cleaned_world).
Proof.
  apply (initialize_resets_table_entries filtered_table cleaned_world [VStr "b"]).
  reflexivity.
Defined.

Lemma overwrite_loop_get (t : string) (rows : list Value) (lin : Lineage)
  (k : Value) :
  dd_get k [] (foldl (fun l rid => <[rid := [t]]> l) lin rows) =
    if decide (k ∈ rows) then [t] else dd_get k [] lin.
Proof.
  unfold dd_get. case_decide as Hk.
  - by rewrite insert_loop_lookup_in.
  - by rewrite insert_loop_lookup_notin.
Qed.

(** X8: [update_lineage] with a list of new rows: afterwards the lineage
    of an identifier of that list is exactly the name of the transformation,
    whatever it was and however many rows carry it; the lineage of any
    other identifier has gained the name once for each row of the table
    that carries it; the error ledger and the log are untouched. *)
Theorem update_lineage_with_new_rows (df : DataFrame) (t : string)
  (rows ids : list Value) (w : World)
  (Hids : df_getitem "row_id" df = Ok ids) :
  exists w',
    update_lineage df t (Some rows) w = (Ok tt, w')
    /\ (forall rid,
          fst (get_lineage rid w') =
            Ok (if decide (rid ∈ rows) then [t]
                else dd_get rid [] (lineage (manager w))
                       ++ replicate (occurrences rid ids) t))
    /\ errors (manager w') = errors (manager w)
    /\ logs (manager w') = logs (manager w).
Proof.
  unfold update_lineage. unfold bind at 1, lift. rewrite Hids.
  destruct rows as [|r rows].
  - eexists. split; [reflexivity|]. unfold_M. unfold get_lineage.
    cbn [fst snd manager set_manager lineage errors logs]. repeat split.
    intros rid. f_equal. rewrite decide_False by apply not_elem_of_nil.
    by rewrite append_loop_lineage.
  - eexists. split; [reflexivity|]. unfold_M. unfold get_lineage.
    cbn [fst snd manager set_manager lineage errors logs]. repeat split.
    intros rid. f_equal.
    change (foldl (fun l rid0 => <[rid0 := [t]]> l)
              (<[r := [t]]> ?lin) rows)
      with (foldl (fun l rid0 => <[rid0 := [t]]> l) lin (r :: rows)).
    rewrite overwrite_loop_get. case_decide; [done|].
    by rewrite append_loop_lineage.
Qed.

Lemma update_lineage_with_new_rows_witness :
  exists w',
    update_lineage filtered_table "merge" (Some [VStr "b"]) cleaned_world = (Ok tt, w')
    /\ (forall rid,
          fst (get_lineage rid w') =
            Ok (if decide (rid ∈ [VStr "b"]) then ["merge"]
                else dd_get rid [] (lineage (manager cleaned_world))
                       ++ replicate (occurrences rid [VStr "b"]) "merge"))
    /\ errors (manager w') = errors (manager cleaned_world)
    /\ logs (manager w') = logs (manager cleaned_world).
Proof.
  apply (update_lineage_with_new_rows filtered_table "merge" [VStr "b"] [VStr "b"]
           cleaned_world).
  reflexivity.
Defined.

(** ** The dataset-level decorator, again *)

Lemma manage_metadata_missing_column (func : PyFunction DataFrame DataFrame)
  (df result : DataFrame) (w w_g : World) :
  fn_call func df (snd (time_time w)) = (Ok result, w_g) ->
  column_lookup "row_id" (columns result) = None ->
  fn_call (manage_metadata func) df w =
    (Raise (KeyError "row_id"),
     set_manager
       (mkMetadataManager (lineage (manager w_g))
          (errors (manager w_g)
             ++ [mkErrorRecord (VStr "global") (fn_name func)
                   (str_exn (KeyError "row_id"))])
          (logs (manager w_g)))
       w_g).
Proof.
  intros Hcall Hcol. simpl in *. unfold bind at 1. simpl.
  unfold try_except, bind at 1. rewrite Hcall.
  unfold update_lineage, bind at 1. unfold bind at 1, lift, df_getitem.
  by rewrite Hcol.
Qed.

(** X9: when the wrapped transformation returns a table that has no
    [row_id] column, the decorated call does not return it: it raises
    [KeyError] for row_id, records that as one global error under the name
    of the function (the text of the error is the quoted key), and writes
    neither lineage nor a log record, although the transformation itself
    did not fail. *)
Theorem manage_metadata_result_without_row_id (func : PyFunction DataFrame DataFrame)
  (df result : DataFrame) (w w_g : World)
  (Hcall : fn_call func df (snd (time_time w)) = (Ok result, w_g))
  (Hcol : column_lookup "row_id" (columns result) = None) :
  exists w',
    fn_call (manage_metadata func) df w = (Raise (KeyError "row_id"), w')
    /\ errors (manager w') =
         errors (manager w_g)
           ++ [mkErrorRecord (VStr "global") (fn_name func) "'row_id'"]
    /\ logs (manager w') = logs (manager w_g)
    /\ lineage (manager w') = lineage (manager w_g).
Proof.
  eexists. split; [by apply (manage_metadata_missing_column func df result)|].
  done.
Qed.

Lemma manage_metadata_result_without_row_id_witness :
  exists w',
    fn_call (manage_metadata drop_identifiers) sample_identified initialized_world
      = (Raise (KeyError "row_id"), w')
    /\ errors (manager w') =
         errors (manager (snd (time_time initialized_world)))
           ++ [mkErrorRecord (VStr "global") (fn_name drop_identifiers) "'row_id'"]
    /\ logs (manager w') = logs (manager (snd (time_time initialized_world)))
    /\ lineage (manager w') = lineage (manager (snd (time_time initialized_world))).
Proof.
  apply (manage_metadata_result_without_row_id drop_identifiers sample_identified
           (mkDataFrame 3
              [("id", [VInt 1; VInt 2; VInt 3]);
               ("start_value", [VInt 100; VInt 0; VInt 200]);
               ("end_value", [VInt 110; VInt 20; VInt 240])])
           initialized_world (snd (time_time initialized_world))).
  - reflexivity.
  - reflexivity.
Defined.

(** The three outcomes of one decorated step. *)
Lemma decorated_step_outcome (name : string) (g : DataFrame -> Result DataFrame)
  (df : DataFrame) (w : World) :
  match fn_call (manage_metadata (pure_transformation name g)) df w with
  | (Ok result, w') =>
      g df = Ok result
      /\ (exists ids, df_getitem "row_id" result = Ok ids
            /\ lineage (manager w') =
                 foldl (fun l rid => dd_append rid name l) (lineage (manager w)) ids)
      /\ errors (manager w') = errors (manager w)
      /\ exists record, logs (manager w') = logs (manager w) ++ [record]
                        /\ log_name record = name
  | (Raise e, w') =>
      lineage (manager w') = lineage (manager w)
      /\ errors (manager w') =
           errors (manager w) ++ [mkErrorRecord (VStr "global") name (str_exn e)]
      /\ logs (manager w') = logs (manager w)
  end.
Proof.
  destruct (g df) as [result|e] eqn:Hg.
  - assert (Hcall : fn_call (pure_transformation name g) df (snd (time_time w))
                    = (Ok result, snd (time_time w))).
    { simpl. unfold lift. by rewrite Hg. }
    destruct (column_lookup "row_id" (columns result)) as [ids|] eqn:Hcol.
    + assert (Hids : df_getitem "row_id" result = Ok ids).
      { unfold df_getitem. by rewrite Hcol. }
      destruct (manage_metadata_ok _ _ _ _ _ ids Hcall Hids)
        as (w' & Hrun & Hlin & Herr & Hlog).
      rewrite Hrun. split; [done|]. split; [eauto|]. split; [done|].
      eexists. split; [exact Hlog|done].
    + rewrite (manage_metadata_missing_column _ _ _ _ _ Hcall Hcol). done.
  - rewrite (manage_metadata_raise _ _ _ (snd (time_time w)) e).
    + done.
    + simpl. unfold lift. by rewrite Hg.
Qed.

Lemma run_decorated_accounting
  (steps : list (string * (DataFrame -> Result DataFrame))) (df : DataFrame)
  (w : World) :
  match run_transformations (decorated_steps steps) df w with
  | (Ok _, w') =>
      errors (manager w') = errors (manager w)
      /\ exists new, logs (manager w') = logs (manager w) ++ new
                     /\ map log_name new = map fst steps
  | (Raise e, w') =>
      exists pre name g post new,
        steps = pre ++ (name, g) :: post
        /\ errors (manager w') =
             errors (manager w) ++ [mkErrorRecord (VStr "global") name (str_exn e)]
        /\ logs (manager w') = logs (manager w) ++ new
        /\ map log_name new = map fst pre
  end.
Proof.
  revert df w. induction steps as [|[name g] steps IH]; intros df w.
  - simpl. split; [done|]. exists []. by rewrite app_nil_r.
  - cbn [decorated_steps map run_transformations]. unfold bind.
    pose proof (decorated_step_outcome name g df w) as Hstep.
    destruct (fn_call (manage_metadata (pure_transformation name g)) df w)
      as [[result|e] w1].
    + destruct Hstep as (_ & _ & Herr & record & Hlog & Hname).
      specialize (IH result w1). fold (decorated_steps steps).
      destruct (run_transformations (decorated_steps steps) result w1)
        as [[final|e] w2].
      * destruct IH as (Herr2 & new & Hlog2 & Hnames). split; [congruence|].
        exists (record :: new). split.
        -- rewrite Hlog2, Hlog, <- app_assoc. done.
        -- simpl. by rewrite Hname, Hnames.
      * destruct IH as (pre & n & g' & post & new & -> & Herr2 & Hlog2 & Hnames).
        exists ((name, g) :: pre), n, g', post, (record :: new).
        split; [done|]. split; [congruence|]. split.
        -- rewrite Hlog2, Hlog, <- app_assoc. done.
        -- simpl. by rewrite Hname, Hnames.
    + destruct Hstep as (_ & Herr & Hlog).
      exists [], name, g, steps, []. rewrite app_nil_r. done.
Qed.

Lemma build_pipeline_unfold (specs : list (DataFrame -> M DataFrame))
  (df : DataFrame) (w : World) :
  exists identified w1,
    build_pipeline specs df w = run_transformations specs identified w1
    /\ df_getitem "row_id" identified
       = Ok (map VStr (map (uuid_source w) (seq (uuid_calls w) (nrows df))))
    /\ lineage (manager w1) =
         foldl (fun l rid => <[rid := []]> l) (lineage (manager w))
           (map VStr (map (uuid_source w) (seq (uuid_calls w) (nrows df))))
    /\ errors (manager w1) = errors (manager w)
    /\ logs (manager w1) = logs (manager w).
Proof.
  eexists _, _. split.
  - unfold build_pipeline. unfold bind at 1. rewrite add_row_id_spec.
    unfold bind at 1. rewrite initialize_identified. reflexivity.
  - split; [|done]. unfold df_getitem. simpl.
    by rewrite column_lookup_assign_eq.
Qed.

(** X10: a run of [build_pipeline] over decorated steps accounts for every
    step.  When the run returns, the transformation log has gained one
    record per step, in list order, and the error ledger has gained
    nothing.  When it raises, the log has gained one record for each step
    before the failing one, and the error ledger has gained exactly one
    record: a global error under the name of the failing step. *)
Theorem pipeline_log_accounts_for_steps
  (steps : list (string * (DataFrame -> Result DataFrame))) (df : DataFrame)
  (w : World) :
  match build_pipeline (decorated_steps steps) df w with
  | (Ok _, w') =>
      errors (manager w') = errors (manager w)
      /\ exists new, logs (manager w') = logs (manager w) ++ new
                     /\ map log_name new = map fst steps
  | (Raise e, w') =>
      exists pre name g post new,
        steps = pre ++ (name, g) :: post
        /\ errors (manager w') =
             errors (manager w) ++ [mkErrorRecord (VStr "global") name (str_exn e)]
        /\ logs (manager w') = logs (manager w) ++ new
        /\ map log_name new = map fst pre
  end.
Proof.
  destruct (build_pipeline_unfold (decorated_steps steps) df w)
    as (identified & w1 & -> & _ & _ & Herr & Hlog).
  pose proof (run_decorated_accounting steps identified w1) as Hrun.
  by rewrite Herr, Hlog in Hrun.
Qed.

#[global] Instance VStr_inj : Inj (=) (=) VStr.
Proof. by intros s1 s2 [= ->]. Qed.

Lemma run_decorated_lineage
  (steps : list (string * (DataFrame -> Result DataFrame))) (df final : DataFrame)
  (w w' : World) (ids : list Value) :
  Forall (fun step => keeps_identifiers (snd step)) steps ->
  df_getitem "row_id" df = Ok ids ->
  NoDup ids ->
  run_transformations (decorated_steps steps) df w = (Ok final, w') ->
  df_getitem "row_id" final = Ok ids
  /\ forall rid, rid ∈ ids ->
       dd_get rid [] (lineage (manager w'))
         = dd_get rid [] (lineage (manager w)) ++ map fst steps.
Proof.
  intros Hkeep. revert df w.
  induction Hkeep as [|[name g] steps Hg _ IH]; intros df w Hids Hnd.
  - simpl. unfold ret. intros [= <- <-]. split; [done|].
    intros rid _. by rewrite app_nil_r.
  - cbn [decorated_steps map run_transformations]. unfold bind.
    pose proof (decorated_step_outcome name g df w) as Hstep.
    destruct (fn_call (manage_metadata (pure_transformation name g)) df w)
      as [[result|e] w1]; [|done].
    destruct Hstep as (Hres & (ids' & Hids' & Hlin) & _ & _).
    fold (decorated_steps steps). intros Hrun.
    assert (ids' = ids) as ->.
    { rewrite (Hg df result Hres), Hids in Hids'. by injection Hids'. }
    destruct (IH result w1 Hids' Hnd Hrun) as (Hfinal & Hlins).
    split; [done|]. intros rid Hin.
    rewrite (Hlins rid Hin), Hlin, append_loop_lineage.
    rewrite occurrences_NoDup by done. simpl. by rewrite <- app_assoc.
Qed.

(** X11: when a run of [build_pipeline] over decorated steps returns, and
    every step hands the [row_id] column on unchanged, the final table
    carries the identifiers minted at the start and the lineage of each of
    them is the list of the names of the steps, in pipeline order, whatever
    the ledger held before the run.  The identifiers [uuid4] hands out are
    taken to be pairwise distinct. *)
Theorem pipeline_lineage_is_step_names
  (steps : list (string * (DataFrame -> Result DataFrame))) (df final : DataFrame)
  (w w' : World)
  (Huuid : Inj (=) (=) (uuid_source w))
  (Hkeep : Forall (fun step => keeps_identifiers (snd step)) steps)
  (Hrun : build_pipeline (decorated_steps steps) df w = (Ok final, w')) :
  row_ids final = map VStr (map (uuid_source w) (seq (uuid_calls w) (nrows df)))
  /\ forall rid, rid ∈ row_ids final ->
       get_lineage rid w' = (Ok (map fst steps), w').
Proof.
  destruct (build_pipeline_unfold (decorated_steps steps) df w)
    as (identified & w1 & Hbuild & Hids & Hlin & _ & _).
  rewrite Hbuild in Hrun.
  assert (Hnd : NoDup (map VStr (map (uuid_source w)
                                   (seq (uuid_calls w) (nrows df))))).
  { apply (NoDup_fmap_2 VStr), (NoDup_fmap_2 (uuid_source w)), NoDup_seq. }
  destruct (run_decorated_lineage steps identified final w1 w' _ Hkeep Hids Hnd Hrun)
    as (Hfinal & Hlins).
  apply df_getitem_row_ids in Hfinal. rewrite Hfinal. split; [done|].
  intros rid Hin. unfold get_lineage. rewrite (Hlins rid Hin), Hlin.
  unfold dd_get at 1. by rewrite insert_loop_lookup_in.
Qed.

Lemma add_flag_keeps_identifiers :
  keeps_identifiers
    (fun df => df_setitem "flag" (replicate (nrows df) (VInt 1)) df).
Proof.
  intros df result. unfold df_setitem. case_decide; [|done].
  intros [= <-]. unfold df_getitem. simpl.
  by rewrite column_lookup_assign_ne.
Qed.

Lemma pipeline_lineage_is_step_names_witness :
  row_ids sample_flagged_run
    = map VStr (map (uuid_source sample_world)
                  (seq (uuid_calls sample_world) (nrows sample_input)))
  /\ forall rid, rid ∈ row_ids sample_flagged_run ->
       get_lineage rid
         (snd (build_pipeline (decorated_steps sample_steps) sample_input sample_world))
       = (Ok (map fst sample_steps),
          snd (build_pipeline (decorated_steps sample_steps) sample_input sample_world)).
Proof.
  apply (pipeline_lineage_is_step_names sample_steps sample_input sample_flagged_run
           sample_world
           (snd (build_pipeline (decorated_steps sample_steps) sample_input
                   sample_world))).
  - exact pretty_nat_inj.
  - repeat constructor; apply add_flag_keeps_identifiers.
  - reflexivity.
Defined.

(** ** Records are only ever added *)

Lemma keeps_records_ret {A : Type} (a : A) : keeps_records (ret a).
Proof. intros w. simpl. done. Qed.

Lemma keeps_records_bind {A B : Type} (c : M A) (k : A -> M B) :
  keeps_records c -> (forall a, keeps_records (k a)) -> keeps_records (bind c k).
Proof.
  intros Hc Hk w. unfold bind. specialize (Hc w).
  destruct (c w) as [[a|e] w1]; simpl in *; [|done].
  specialize (Hk a w1). destruct Hc as (He & Hl & Hd), Hk as (He' & Hl' & Hd').
  split; [by etrans|]. split; [by etrans|]. by etrans.
Qed.

Lemma keeps_records_try_except {A : Type} (c : M A) (h : Exn -> M A) :
  keeps_records c -> (forall e, keeps_records (h e)) ->
  keeps_records (try_except c h).
Proof.
  intros Hc Hh w. unfold try_except. specialize (Hc w).
  destruct (c w) as [[a|e] w1]; simpl in *; [done|].
  specialize (Hh e w1). destruct Hc as (He & Hl & Hd), Hh as (He' & Hl' & Hd').
  split; [by etrans|]. split; [by etrans|]. by etrans.
Qed.

Lemma keeps_records_lift {A : Type} (r : Result A) : keeps_records (lift r).
Proof. intros w. simpl. done. Qed.

Lemma keeps_records_throw {A : Type} (e : Exn) : keeps_records (@throw A e).
Proof. intros w. simpl. done. Qed.

Lemma keeps_records_time : keeps_records time_time.
Proof. intros w. simpl. done. Qed.

Lemma keeps_records_uuid_list (n : nat) : keeps_records (uuid_list n).
Proof. intros w. rewrite uuid_list_spec. simpl. done. Qed.

Lemma keeps_records_log_error (rid : Value) (t : string) (e : Exn) :
  keeps_records (log_error rid t e).
Proof.
  intros w. simpl. split; [by apply prefix_app_r|]. done.
Qed.

Lemma keeps_records_log_transformation (t : string) (start_time : float)
  (details : option (list (string * Value))) :
  keeps_records (log_transformation t start_time details).
Proof.
  intros w. simpl. split; [done|]. split; [by apply prefix_app_r|]. done.
Qed.

Lemma insert_loop_dom (v : list string) (ids : list Value) (lin : Lineage) :
  dom lin ⊆ dom (foldl (fun l rid => <[rid := v]> l) lin ids).
Proof.
  revert lin. induction ids as [|a ids IH]; intros lin; simpl; [done|].
  etrans; [|apply IH]. rewrite dom_insert_L. apply union_subseteq_r.
Qed.

Lemma keeps_records_initialize (df : DataFrame) : keeps_records (initialize df).
Proof.
  intros w. unfold initialize, bind, lift.
  destruct (df_getitem "row_id" df) as [ids|e]; simpl; [|done].
  split; [done|]. split; [done|]. apply insert_loop_dom.
Qed.

Lemma keeps_records_update_lineage (df : DataFrame) (t : string)
  (new_rows : option (list Value)) :
  keeps_records (update_lineage df t new_rows).
Proof.
  intros w. unfold update_lineage. unfold bind at 1, lift.
  destruct (df_getitem "row_id" df) as [ids|e]; simpl; [|done].
  assert (Happ : dom (lineage (manager w))
                 ⊆ dom (foldl (fun l rid => dd_append rid t l)
                          (lineage (manager w)) ids)).
  { rewrite append_loop_dom. apply union_subseteq_l. }
  destruct new_rows as [[|r rows]|]; simpl; try done.
  split; [done|]. split; [done|].
  etrans; [exact Happ|].
  change (foldl (fun l rid => <[rid := [t]]> l) (<[r := [t]]> ?lin) rows)
    with (foldl (fun l rid => <[rid := [t]]> l) lin (r :: rows)).
  apply insert_loop_dom.
Qed.

(** Compositions of the manager's own operations. *)
Ltac keeps_records_steps :=
  repeat match goal with
    | |- keeps_records (ret _) => apply keeps_records_ret
    | |- keeps_records (throw _) => apply keeps_records_throw
    | |- keeps_records (lift _) => apply keeps_records_lift
    | |- keeps_records time_time => apply keeps_records_time
    | |- keeps_records (log_error _ _ _) => apply keeps_records_log_error
    | |- keeps_records (log_transformation _ _ _) =>
        apply keeps_records_log_transformation
    | |- keeps_records (update_lineage _ _ _) => apply keeps_records_update_lineage
    | |- keeps_records (initialize _) => apply keeps_records_initialize
    | |- keeps_records (uuid_list _) => apply keeps_records_uuid_list
    | |- keeps_records (try_except _ _) =>
        apply keeps_records_try_except; [|intros ?]
    | |- keeps_records (bind _ _) => apply keeps_records_bind; [|intros ?]
    end.

(** X12: [manage_metadata] only adds to the manager.  If the wrapped
    function leaves the existing error records and log records in place and
    removes no identifier from the lineage ledger, so does the decorated
    function, whether it returns or raises. *)
Theorem manage_metadata_keeps_records (func : PyFunction DataFrame DataFrame)
  (Hfunc : forall df, keeps_records (fn_call func df)) :
  forall df, keeps_records (fn_call (manage_metadata func) df).
Proof.
  intros df. simpl.
  apply keeps_records_bind; [apply keeps_records_time|]. intros start_time.
  apply keeps_records_try_except.
  - apply keeps_records_bind; [apply Hfunc|]. intros result.
    keeps_records_steps.
  - intros e. keeps_records_steps.
Qed.

Lemma pure_transformation_keeps_records (name : string)
  (g : DataFrame -> Result DataFrame) (df : DataFrame) :
  keeps_records (fn_call (pure_transformation name g) df).
Proof. simpl. apply keeps_records_lift. Qed.

Lemma manage_metadata_keeps_records_witness :
  keeps_records (fn_call (manage_metadata always_fails) sample_identified).
Proof.
  apply (manage_metadata_keeps_records always_fails).
  intros df. simpl. apply keeps_records_throw.
Defined.

Lemma keeps_records_run (specs : list (DataFrame -> M DataFrame)) :
  Forall (fun t => forall df, keeps_records (t df)) specs ->
  forall df, keeps_records (run_transformations specs df).
Proof.
  induction 1 as [|t specs Ht _ IH]; intros df; simpl.
  - apply keeps_records_ret.
  - apply keeps_records_bind; [apply Ht|]. apply IH.
Qed.

(** X13: a run of [build_pipeline] only adds to the manager when its
    transformations do: the error records and log records that were there
    before the run are still there afterwards, in place, and every
    identifier the lineage ledger knew is still known; this holds for runs
    that raise as well, and so for one run after another on the same
    manager. *)
Theorem build_pipeline_keeps_records (specs : list (DataFrame -> M DataFrame))
  (Hspecs : Forall (fun t => forall df, keeps_records (t df)) specs) :
  forall df, keeps_records (build_pipeline specs df).
Proof.
  intros df. unfold build_pipeline.
  apply keeps_records_bind.
  - unfold add_row_id.
    apply keeps_records_bind; [apply keeps_records_uuid_list|].
    intros ids. apply keeps_records_lift.
  - intros identified.
    apply keeps_records_bind; [apply keeps_records_initialize|].
    intros _. by apply keeps_records_run.
Qed.

Lemma failing_pipeline_keeps_records :
  Forall (fun t => forall df, keeps_records (t df)) failing_pipeline.
Proof.
  unfold failing_pipeline.
  repeat (apply Forall_cons; split); [..|by apply Forall_nil];
    intros df; unfold manage_metadata, add_flag, always_fails;
    cbn [fn_call fn_name]; keeps_records_steps.
Qed.

Lemma build_pipeline_keeps_records_witness :
  keeps_records (build_pipeline failing_pipeline sample_input).
Proof.
  apply (build_pipeline_keeps_records failing_pipeline).
  apply failing_pipeline_keeps_records.
Defined.

(** ** Rows after the first exception *)

Lemma apply_rows_app {V : Type} (f : Row -> M V) (pre post : list Row) (w : World) :
  apply_rows f (pre ++ post) w =
    match apply_rows f pre w with
    | (Ok vs, w1) =>
        match apply_rows f post w1 with
        | (Ok vs', w2) => (Ok (vs ++ vs'), w2)
        | (Raise e, w2) => (Raise e, w2)
        end
    | (Raise e, w1) => (Raise e, w1)
    end.
Proof.
  revert w. induction pre as [|row pre IH]; intros w; simpl.
  - unfold ret. by destruct (apply_rows f post w) as [[vs'|e] w2].
  - unfold bind. destruct (f row w) as [[v|e] w1]; [|done]. rewrite IH.
    destruct (apply_rows f pre w1) as [[vs|e] w2]; [|done]. unfold ret.
    by destruct (apply_rows f post w2) as [[vs'|e] w3].
Qed.

(** On rows where the wrapped function returns, the decorated function
    does what the wrapped one does. *)
Lemma apply_rows_decorated_success {V : Type} (scope : Scope)
  (on_error : option ErrorCallback) (column_name : option string) (fallback : V)
  (func : PyFunction Row V) (rows : list Row) (w w1 : World) (vs : list V) :
  apply_rows (fn_call func) rows w = (Ok vs, w1) ->
  apply_rows (fn_call (handle_row_errors scope on_error column_name fallback func))
    rows w = (Ok vs, w1).
Proof.
  revert w w1 vs. induction rows as [|row rows IH]; intros w w1 vs; [done|].
  cbn [apply_rows]. unfold bind at 1 3.
  destruct (fn_call func row w) as [[v|e] w'] eqn:Hrow; [|done].
  rewrite (handle_row_errors_success _ _ _ _ _ _ _ _ _ Hrow).
  unfold bind.
  destruct (apply_rows (fn_call func) rows w') as [[vs'|e] w''] eqn:Hrest; [|done].
  by rewrite (IH _ _ _ Hrest).
Qed.

(** X14: in a module whose globals do not bind [ValidationError], as
    [pipeline_functions.py] is written, the row-level decorator isolates
    nothing.  Applying the decorated function over a table stops at the
    first row on which the wrapped function raises, whatever the
    exception: the call raises [NameError] for the name [ValidationError];
    the world is the one the wrapped function left at that row, so the
    callback [on_error] was not called, no error record was written and
    the rows after it were not visited. *)
Theorem apply_stops_at_first_exception {V : Type} (scope : Scope)
  (on_error : option ErrorCallback) (column_name : option string) (fallback : V)
  (func : PyFunction Row V) (df : DataFrame) (w w1 w2 : World)
  (pre post : list Row) (row : Row) (vs : list V) (e : Exn) (call : M (list V))
  (Hunbound : binds_ValidationError scope = false)
  (Hcall : df_apply
             (fn_call (handle_row_errors scope on_error column_name fallback func))
             df = Some call)
  (Hrows : df_rows df = pre ++ row :: post)
  (Hpre : apply_rows (fn_call func) pre w = (Ok vs, w1))
  (Hrow : fn_call func row w1 = (Raise e, w2)) :
  call w = (Raise (NameError "ValidationError"), w2).
Proof.
  apply df_apply_defined in Hcall as [-> _].
  rewrite Hrows, apply_rows_app.
  rewrite (apply_rows_decorated_success _ _ _ _ _ _ _ _ _ Hpre).
  cbn [apply_rows]. unfold bind at 1.
  by rewrite (handle_row_errors_unbound_class _ _ _ _ _ _ _ _ _ Hunbound Hrow).
Qed.

Lemma apply_stops_at_first_exception_witness :
  apply_rows
    (fn_call (handle_row_errors module_scope (Some log_error) (Some "growth_rate")
                VNone (pure_row_function "growth_percent" growth_percent)))
    (df_rows sample_identified) sample_world
  = (Raise (NameError "ValidationError"), sample_world).
Proof.
  apply (apply_stops_at_first_exception module_scope (Some log_error)
           (Some "growth_rate") VNone
           (pure_row_function "growth_percent" growth_percent)
           sample_identified sample_world sample_world sample_world
           [row_at sample_identified 0] [row_at sample_identified 2]
           (row_at sample_identified 1) [VInt 10]
           (ValueError "Invalid start_value")).
  - reflexivity.
  - reflexivity.
  - reflexivity.
  - vm_compute. reflexivity.
  - vm_compute. reflexivity.
Defined.

(** ** Identifiers that were already there *)

Lemma column_assign_names (c : string) (vs old : list Value)
  (cols : list (string * list Value)) :
  column_lookup c cols = Some old ->
  fst <$> column_assign c vs cols = fst <$> cols.
Proof.
  induction cols as [|[c0 vs0] cols IH]; simpl; [done|].
  case_decide as Hc.
  - by subst c0.
  - intros Hl. rewrite !fmap_cons. f_equal. by apply IH.
Qed.

(** X15: on a table that already has a [row_id] column, [add_row_id] does
    not keep it: the column stays where it is among the columns but every
    cell is replaced by a newly minted identifier, so the identifiers the
    rows came with are lost; the other columns and the number of rows are
    unchanged. *)
Theorem add_row_id_replaces_existing (df : DataFrame) (w : World)
  (old : list Value)
  (Hold : column_lookup "row_id" (columns df) = Some old) :
  exists out w',
    add_row_id df w = (Ok out, w')
    /\ row_ids out
       = map VStr (map (uuid_source w) (seq (uuid_calls w) (nrows df)))
    /\ fst <$> columns out = fst <$> columns df
    /\ nrows out = nrows df
    /\ forall c, c <> "row_id" ->
         column_lookup c (columns out) = column_lookup c (columns df).
Proof.
  eexists _, _. split; [apply add_row_id_spec|]. simpl.
  split; [|split; [|split]].
  - unfold row_ids. simpl. by rewrite column_lookup_assign_eq.
  - by apply (column_assign_names _ _ old).
  - done.
  - intros c Hc. by apply column_lookup_assign_ne.
Qed.

Lemma add_row_id_replaces_existing_witness :
  exists out w',
    add_row_id sample_keyed sample_world = (Ok out, w')
    /\ row_ids out
       = map VStr (map (uuid_source sample_world)
                     (seq (uuid_calls sample_world) (nrows sample_keyed)))
    /\ fst <$> columns out = fst <$> columns sample_keyed
    /\ nrows out = nrows sample_keyed
    /\ forall c, c <> "row_id" ->
         column_lookup c (columns out) = column_lookup c (columns sample_keyed).
Proof.
  apply (add_row_id_replaces_existing sample_keyed sample_world
           [VStr "old-1"; VStr "old-2"]).
  reflexivity.
Defined.

Example add_row_id_replaces_sample :
  fst (add_row_id sample_keyed sample_world)
    = Ok (mkDataFrame 2
            [("row_id", [VStr "0"; VStr "1"]); ("value", [VInt 7; VInt 8])]).
Proof. vm_compute. reflexivity. Qed.
